(** * WhatsChat: presence tracking and realtime message synchronisation

    A shallow embedding of the conversation view of the WhatsChat client
    (src/contexts/Chat.tsx): the optimistic message list, the realtime
    insert and delete handlers, the unread counters, the opening of the
    realtime channel and its retries, the multi-tab presence coordination
    with heartbeats, and message deletion.

    Conventions of the embedding
    - Timestamps ([Date.now()], [new Date().toISOString()]) are
      milliseconds since the epoch, in [Z].
    - React state is a record; a [setX(prev => ...)] updater is a function
      on the corresponding field.
    - A request to the backend resolves to a result object, resolves to
      an error object, or rejects; which one happens is read from an
      oracle carried by the state, so that every theorem quantifies over
      the behaviour of the network.
    - An [async] function is run to completion at the point where it is
      called; [try]/[catch] is a combinator of the monad, and mutations
      made before a [throw] are kept, as in JavaScript.
    - State updates are committed, and the effects that depend on the
      state run, when the code gives the control back: at an [await] and
      at the end of a callback.
    - A counter held in a JavaScript number is an integer in [Z], and
      adding to it rounds as a double does. *)

From Stdlib Require Import ZArith Ascii String List Bool Lia.
From stdpp Require Import base option strings pretty gmap.
Import ListNotations.

Local Open Scope Z_scope.
Local Open Scope string_scope.

(** ** Data model *)

(** [Database['public']['Tables']['messages']['Row']]. *)
Inductive MediaType := image | video.

Record Message := {
  id : string;
  chat_id : string;
  sender_id : string;
  content : option string;
  created_at : Z;
  media_url : option string;
  media_type : option MediaType
}.

(** The presence columns of a [profiles] row. *)
Record PresenceRecord := {
  is_online : bool;
  last_seen : option Z;
  last_heartbeat : option Z
}.

(** The argument of [supabase.from('profiles').update(...)]: each column
    is either absent from the object or present with a (nullable) value. *)
Record PresenceUpdate := {
  set_is_online : option bool;
  set_last_seen : option (option Z);
  set_last_heartbeat : option (option Z)
}.

Definition apply_update (u : PresenceUpdate) (r : PresenceRecord) : PresenceRecord :=
  {| is_online := default (is_online r) (set_is_online u);
     last_seen := default (last_seen r) (set_last_seen u);
     last_heartbeat := default (last_heartbeat r) (set_last_heartbeat u) |}.

(** [onlineStatusRef.current]. *)
Record OnlineStatusRef := {
  isOnline : bool;
  lastHeartbeat : Z;
  tabCount : nat;
  heartbeatInterval : option positive;
  lastVisibilityChange : Z;
  isMinimized : bool;
  minimizeTimeout : option positive
}.

Inductive ConnectionStatus := connected | connecting | disconnected.

Record DeleteModal := {
  dm_messageId : string;
  dm_isOwnMessage : bool
}.

Record RecentChat := {
  rc_id : string;
  unread_count : Z
}.

(** The [deletionEvent] object of [handleDeleteMessage]. *)
Record DeletionEvent := {
  de_chatId : string;
  de_messageId : string;
  de_timestamp : Z
}.

(** How a request to the backend ends. *)
Inductive NetResult :=
| NetOk       (* resolves, the request was carried out *)
| NetError    (* resolves to [{ error }], nothing was carried out *)
| NetThrow.   (* the promise rejects *)

(** Effects that leave the tab, in the order they are issued. *)
Inductive Effect :=
| ProfilesUpdate (u : PresenceUpdate) (r : NetResult)
| ProfilesSelect (r : NetResult)
| MessagesDelete (messageId : string) (r : NetResult)
| StorageRemove (bucket fileName : string) (r : NetResult)
| LocalStorageSet (key : string) (d : DeletionEvent)
| DispatchMessageDeleted (d : DeletionEvent)
| Alert (text : string).

(** State shared by every tab of the browser profile and the backend. *)
Record Shared := {
  now : Z;                                (* the clock *)
  net : list NetResult;                   (* oracle; exhausted means NetOk *)
  profiles_row : PresenceRecord;          (* the local user's row *)
  messages_table : list Message;          (* the authoritative table *)
  active_tabs : gmap string Z;            (* localStorage['active_tabs'] *)
  effects : list Effect                   (* trace, oldest first *)
}.

(** State of one mounted [Chat] component (one tab). *)
Record Tab := {
  profile_id : option string;             (* [profile?.id] *)
  chatId : string;
  pathname : string;                      (* [window.location.pathname] *)
  onlineStatusRef : OnlineStatusRef;
  intervals : gset positive;              (* live [setInterval] handles *)
  next_handle : positive;
  messages : list Message;
  connectionStatus : ConnectionStatus;
  unreadMessages : gmap string Z;
  saved_unread : gmap string Z;           (* localStorage['unread_messages'] *)
  recentChats : list RecentChat;
  newMessage : string;
  deleteModal : option DeleteModal;
  messageMenu : option string
}.

Record World := { shared : Shared; tab : Tab }.

(** *** Field updates *)

Definition with_now (t : Z) (s : Shared) : Shared :=
  {| now := t; net := net s; profiles_row := profiles_row s;
     messages_table := messages_table s; active_tabs := active_tabs s;
     effects := effects s |}.

Definition with_net (n : list NetResult) (s : Shared) : Shared :=
  {| now := now s; net := n; profiles_row := profiles_row s;
     messages_table := messages_table s; active_tabs := active_tabs s;
     effects := effects s |}.

Definition with_profiles_row (r : PresenceRecord) (s : Shared) : Shared :=
  {| now := now s; net := net s; profiles_row := r;
     messages_table := messages_table s; active_tabs := active_tabs s;
     effects := effects s |}.

Definition with_messages_table (m : list Message) (s : Shared) : Shared :=
  {| now := now s; net := net s; profiles_row := profiles_row s;
     messages_table := m; active_tabs := active_tabs s;
     effects := effects s |}.

Definition with_active_tabs (a : gmap string Z) (s : Shared) : Shared :=
  {| now := now s; net := net s; profiles_row := profiles_row s;
     messages_table := messages_table s; active_tabs := a;
     effects := effects s |}.

Definition with_effects (e : list Effect) (s : Shared) : Shared :=
  {| now := now s; net := net s; profiles_row := profiles_row s;
     messages_table := messages_table s; active_tabs := active_tabs s;
     effects := e |}.

Definition with_ref (r : OnlineStatusRef) (t : Tab) : Tab :=
  {| profile_id := profile_id t; chatId := chatId t; pathname := pathname t;
     onlineStatusRef := r; intervals := intervals t;
     next_handle := next_handle t; messages := messages t;
     connectionStatus := connectionStatus t;
     unreadMessages := unreadMessages t; saved_unread := saved_unread t;
     recentChats := recentChats t; newMessage := newMessage t;
     deleteModal := deleteModal t; messageMenu := messageMenu t |}.

Definition with_intervals (i : gset positive) (n : positive) (t : Tab) : Tab :=
  {| profile_id := profile_id t; chatId := chatId t; pathname := pathname t;
     onlineStatusRef := onlineStatusRef t; intervals := i;
     next_handle := n; messages := messages t;
     connectionStatus := connectionStatus t;
     unreadMessages := unreadMessages t; saved_unread := saved_unread t;
     recentChats := recentChats t; newMessage := newMessage t;
     deleteModal := deleteModal t; messageMenu := messageMenu t |}.

Definition with_messages (m : list Message) (t : Tab) : Tab :=
  {| profile_id := profile_id t; chatId := chatId t; pathname := pathname t;
     onlineStatusRef := onlineStatusRef t; intervals := intervals t;
     next_handle := next_handle t; messages := m;
     connectionStatus := connectionStatus t;
     unreadMessages := unreadMessages t; saved_unread := saved_unread t;
     recentChats := recentChats t; newMessage := newMessage t;
     deleteModal := deleteModal t; messageMenu := messageMenu t |}.

Definition with_connectionStatus (c : ConnectionStatus) (t : Tab) : Tab :=
  {| profile_id := profile_id t; chatId := chatId t; pathname := pathname t;
     onlineStatusRef := onlineStatusRef t; intervals := intervals t;
     next_handle := next_handle t; messages := messages t;
     connectionStatus := c;
     unreadMessages := unreadMessages t; saved_unread := saved_unread t;
     recentChats := recentChats t; newMessage := newMessage t;
     deleteModal := deleteModal t; messageMenu := messageMenu t |}.

Definition with_unread (u s : gmap string Z) (rc : list RecentChat) (t : Tab) : Tab :=
  {| profile_id := profile_id t; chatId := chatId t; pathname := pathname t;
     onlineStatusRef := onlineStatusRef t; intervals := intervals t;
     next_handle := next_handle t; messages := messages t;
     connectionStatus := connectionStatus t;
     unreadMessages := u; saved_unread := s;
     recentChats := rc; newMessage := newMessage t;
     deleteModal := deleteModal t; messageMenu := messageMenu t |}.

Definition with_newMessage (d : string) (t : Tab) : Tab :=
  {| profile_id := profile_id t; chatId := chatId t; pathname := pathname t;
     onlineStatusRef := onlineStatusRef t; intervals := intervals t;
     next_handle := next_handle t; messages := messages t;
     connectionStatus := connectionStatus t;
     unreadMessages := unreadMessages t; saved_unread := saved_unread t;
     recentChats := recentChats t; newMessage := d;
     deleteModal := deleteModal t; messageMenu := messageMenu t |}.

Definition with_modals (d : option DeleteModal) (m : option string) (t : Tab) : Tab :=
  {| profile_id := profile_id t; chatId := chatId t; pathname := pathname t;
     onlineStatusRef := onlineStatusRef t; intervals := intervals t;
     next_handle := next_handle t; messages := messages t;
     connectionStatus := connectionStatus t;
     unreadMessages := unreadMessages t; saved_unread := saved_unread t;
     recentChats := recentChats t; newMessage := newMessage t;
     deleteModal := d; messageMenu := m |}.

Definition with_isOnline (b : bool) (r : OnlineStatusRef) : OnlineStatusRef :=
  {| isOnline := b; lastHeartbeat := lastHeartbeat r; tabCount := tabCount r;
     heartbeatInterval := heartbeatInterval r;
     lastVisibilityChange := lastVisibilityChange r;
     isMinimized := isMinimized r; minimizeTimeout := minimizeTimeout r |}.

Definition with_lastHeartbeat (t : Z) (r : OnlineStatusRef) : OnlineStatusRef :=
  {| isOnline := isOnline r; lastHeartbeat := t; tabCount := tabCount r;
     heartbeatInterval := heartbeatInterval r;
     lastVisibilityChange := lastVisibilityChange r;
     isMinimized := isMinimized r; minimizeTimeout := minimizeTimeout r |}.

Definition with_tabCount (n : nat) (r : OnlineStatusRef) : OnlineStatusRef :=
  {| isOnline := isOnline r; lastHeartbeat := lastHeartbeat r; tabCount := n;
     heartbeatInterval := heartbeatInterval r;
     lastVisibilityChange := lastVisibilityChange r;
     isMinimized := isMinimized r; minimizeTimeout := minimizeTimeout r |}.

Definition with_heartbeatInterval (h : option positive) (r : OnlineStatusRef) : OnlineStatusRef :=
  {| isOnline := isOnline r; lastHeartbeat := lastHeartbeat r;
     tabCount := tabCount r; heartbeatInterval := h;
     lastVisibilityChange := lastVisibilityChange r;
     isMinimized := isMinimized r; minimizeTimeout := minimizeTimeout r |}.

(** ** The monad of handlers: state and exceptions *)

Inductive Completion (A : Type) :=
| Normal (a : A)
| Thrown (err : string).
Arguments Normal {A} a.
Arguments Thrown {A} err.

Definition Async (A : Type) : Type := World -> Completion A * World.

Definition ret {A} (a : A) : Async A := fun w => (Normal a, w).

Definition bind {A B} (m : Async A) (k : A -> Async B) : Async B :=
  fun w =>
    match m w with
    | (Normal a, w') => k a w'
    | (Thrown e, w') => (Thrown e, w')
    end.

Definition throw {A} (e : string) : Async A := fun w => (Thrown e, w).

(** [try { body } catch (err) { handler }]. *)
Definition try_catch {A} (body : Async A) (handler : string -> Async A) : Async A :=
  fun w =>
    match body w with
    | (Normal a, w') => (Normal a, w')
    | (Thrown e, w') => handler e w'
    end.

Notation "'let!' x ':=' m 'in' k" := (bind m (fun x => k))
  (at level 10, x name, m at level 200, k at level 200).
Notation "m '>>' k" := (bind m (fun _ => k))
  (at level 100, k at level 200, right associativity).

Definition get_shared : Async Shared := fun w => (Normal (shared w), w).
Definition get_tab : Async Tab := fun w => (Normal (tab w), w).

Definition modify_shared (f : Shared -> Shared) : Async unit :=
  fun w => (Normal tt, {| shared := f (shared w); tab := tab w |}).

Definition modify_tab (f : Tab -> Tab) : Async unit :=
  fun w => (Normal tt, {| shared := shared w; tab := f (tab w) |}).

Definition modify_ref (f : OnlineStatusRef -> OnlineStatusRef) : Async unit :=
  modify_tab (fun t => with_ref (f (onlineStatusRef t)) t).

Definition emit (e : Effect) : Async unit :=
  modify_shared (fun s => with_effects (effects s ++ [e]) s).

(** [console.log] and [console.error] have no effect on the model. *)
Definition console : Async unit := ret tt.

(** The state after running a handler. *)
Definition exec {A} (m : Async A) (w : World) : World := snd (m w).

(** Whether a handler lets an exception escape. *)
Definition throws {A} (m : Async A) (w : World) : bool :=
  match fst (m w) with Normal _ => false | Thrown _ => true end.

(** *** Backend requests *)

Definition next_net : Async NetResult :=
  fun w =>
    match net (shared w) with
    | [] => (Normal NetOk, w)
    | r :: rest =>
        (Normal r, {| shared := with_net rest (shared w); tab := tab w |})
    end.

(** [await supabase.from('profiles').update(u).eq('id', profile.id)];
    the value is the [error] field of the result. *)
Definition profiles_update (u : PresenceUpdate) : Async bool :=
  let! r := next_net in
  emit (ProfilesUpdate u r) >>
  match r with
  | NetOk =>
      modify_shared (fun s => with_profiles_row (apply_update u (profiles_row s)) s) >>
      ret false
  | NetError => ret true
  | NetThrow => throw "update rejected"
  end.

(** [await supabase.from('profiles').select(...).eq('id', profile.id).single()];
    the value is the [data] field of the result. *)
Definition profiles_select : Async (option PresenceRecord) :=
  let! r := next_net in
  emit (ProfilesSelect r) >>
  match r with
  | NetOk => let! s := get_shared in ret (Some (profiles_row s))
  | NetError => ret None
  | NetThrow => throw "select rejected"
  end.

(** JavaScript truthiness of [profile?.id]. *)
Definition truthy (o : option string) : bool :=
  match o with
  | Some s => negb (s =? "")
  | None => false
  end.

(** ** Presence *)

(** [updateOnlineStatus] (Chat.tsx 163-187). *)
Definition updateOnlineStatus (online : bool) : Async unit :=
  let! t := get_tab in
  if negb (truthy (profile_id t)) then ret tt else
  try_catch
    (let! s := get_shared in
     let updateData :=
       {| set_is_online := Some online;
          set_last_seen := Some (if online then None else Some (now s));
          set_last_heartbeat := Some (if online then Some (now s) else None) |} in
     let! error := profiles_update updateData in
     if error then console
     else console >> modify_ref (with_isOnline online))
    (fun _ => console).

(** [setInterval] and [clearInterval]; the callback of the heartbeat
    interval is [heartbeatTick] below, fired by the environment. *)
Definition setInterval : Async positive :=
  fun w =>
    let h := next_handle (tab w) in
    (Normal h,
     {| shared := shared w;
        tab := with_intervals (intervals (tab w) ∪ {[h]}) (Pos.succ h) (tab w) |}).

Definition clearInterval (h : positive) : Async unit :=
  modify_tab (fun t => with_intervals (intervals t ∖ {[h]}) (next_handle t) t).

(** [sendHeartbeat], local to [startHeartbeat] (Chat.tsx 196-236). *)
Definition sendHeartbeat (isInitial : bool) : Async unit :=
  let! t := get_tab in
  if negb (truthy (profile_id t))
     || (negb isInitial && negb (isOnline (onlineStatusRef t)))
  then ret tt else
  try_catch
    (let! currentStatus := profiles_select in
     let! t := get_tab in
     (if isOnline (onlineStatusRef t)
         && match currentStatus with
            | Some st => negb (is_online st)
            | None => false
            end
      then console >> updateOnlineStatus true
      else ret tt) >>
     let! s := get_shared in
     let! _ := profiles_update
                 {| set_is_online := Some true;
                    set_last_seen := None;
                    set_last_heartbeat := Some (Some (now s)) |} in
     let! s := get_shared in
     modify_ref (with_lastHeartbeat (now s)) >>
     console)
    (fun _ =>
       console >>
       if isInitial
       then try_catch (updateOnlineStatus false) (fun _ => console)
       else ret tt).

(** [startHeartbeat] (Chat.tsx 190-253). *)
Definition startHeartbeat : Async unit :=
  let! t := get_tab in
  match heartbeatInterval (onlineStatusRef t) with
  | Some h => clearInterval h
  | None => ret tt
  end >>
  sendHeartbeat true >>
  let! h := setInterval in
  modify_ref (with_heartbeatInterval (Some h)).

(** The callback given to [setInterval] in [startHeartbeat], run every
    20 seconds (Chat.tsx 242-251). *)
Definition heartbeatTick : Async unit :=
  sendHeartbeat false >>
  let! t := get_tab in
  let! s := get_shared in
  if isMinimized (onlineStatusRef t)
     && (now s - lastVisibilityChange (onlineStatusRef t) >=? 30000)
  then console >> updateOnlineStatus false
  else ret tt.

(** [checkHeartbeatStatus] (Chat.tsx 256-280), called every 30 seconds. *)
Definition checkHeartbeatStatus : Async unit :=
  let! t := get_tab in
  if negb (truthy (profile_id t)) then ret tt else
  try_catch
    (let! data := profiles_select in
     match data with
     | Some d =>
         match last_heartbeat d with
         | Some lastHb =>
             let! s := get_shared in
             let timeSinceLastHeartbeat := now s - lastHb in
             if (timeSinceLastHeartbeat >? 35000) && is_online d
             then console >> updateOnlineStatus false
             else ret tt
         | None => ret tt
         end
     | None => ret tt
     end)
    (fun _ => console).

(** [updateTabCount], local to [setupMultiTabCoordination]
    (Chat.tsx 287-317); [tabId] is the random identifier of the tab. *)
Definition updateTabCount (tabId : string) (increment : bool) : Async unit :=
  try_catch
    (let! s := get_shared in
     let tabs :=
       if increment then <[tabId := now s]> (active_tabs s)
       else delete tabId (active_tabs s) in
     modify_shared (with_active_tabs tabs) >>
     modify_ref (with_tabCount (size tabs)) >>
     console >>
     if increment && (size tabs =? 1)%nat then
       updateOnlineStatus true >>
       startHeartbeat
     else if negb increment && (size tabs =? 0)%nat then
       updateOnlineStatus false >>
       let! t := get_tab in
       match heartbeatInterval (onlineStatusRef t) with
       | Some h => clearInterval h
       | None => ret tt
       end
     else ret tt)
    (fun _ => console).

Definition registerTab (tabId : string) : Async unit := updateTabCount tabId true.
Definition unregisterTab (tabId : string) : Async unit := updateTabCount tabId false.

(** [cleanupAndGoOffline], run when the component unmounts
    (Chat.tsx 783-815): the heartbeat interval is cleared, the tab leaves
    the registry, and the last tab writes the offline record itself. *)
Definition cleanupAndGoOffline (tabId : string) : Async unit :=
  let! t := get_tab in
  match heartbeatInterval (onlineStatusRef t) with
  | Some h => clearInterval h
  | None => ret tt
  end >>
  try_catch
    (unregisterTab tabId >>
     let! s := get_shared in
     let! t := get_tab in
     if (size (active_tabs s) =? 0)%nat && truthy (profile_id t) then
       let! _ := profiles_update
                   {| set_is_online := Some false;
                      set_last_seen := Some (Some (now s));
                      set_last_heartbeat := Some None |} in
       console
     else ret tt)
    (fun _ => console).

(** ** The optimistic message list *)

(** The updater of the realtime INSERT handler (Chat.tsx 675-691),
    without its unread-count side effect. *)
Definition applyRemoteInsert (newMsg : Message) (prev : list Message) : list Message :=
  if existsb (fun msg => id msg =? id newMsg) prev then prev
  else prev ++ [newMsg].

(** The updater of the realtime DELETE handler (Chat.tsx 708), also used
    by the cross-tab handlers (Chat.tsx 969, 982). *)
Definition applyRemoteDelete (deletedMessageId : string) (prev : list Message) : list Message :=
  List.filter (fun msg => negb (id msg =? deletedMessageId)) prev.

(** [setMessages(prev => [...prev, optimisticMessage])] (Chat.tsx 1152). *)
Definition appendOptimistic (optimisticMessage : Message) (prev : list Message) : list Message :=
  prev ++ [optimisticMessage].

(** [setMessages(prev => prev.map(msg => msg.id === tempId ? data : msg))]
    (Chat.tsx 1171-1173). *)
Definition reconcile (tempId : string) (data : Message) (prev : list Message) : list Message :=
  map (fun msg => if id msg =? tempId then data else msg) prev.

(** [setMessages(prev => prev.filter(msg => msg.id !== tempId))]
    (Chat.tsx 1180). *)
Definition rollback (tempId : string) (prev : list Message) : list Message :=
  List.filter (fun msg => negb (id msg =? tempId)) prev.

Definition ids (l : list Message) : list string := map id l.

(** The calls that reach the list, as events. *)
Inductive StoreEvent :=
| AppendOptimistic (optimisticMessage : Message)
| Reconcile (tempId : string) (data : Message)
| Rollback (tempId : string)
| RemoteInsert (newMsg : Message)
| RemoteDelete (deletedMessageId : string).

Definition apply_event (e : StoreEvent) (l : list Message) : list Message :=
  match e with
  | AppendOptimistic m => appendOptimistic m l
  | Reconcile t d => reconcile t d l
  | Rollback t => rollback t l
  | RemoteInsert m => applyRemoteInsert m l
  | RemoteDelete i => applyRemoteDelete i l
  end.

Definition apply_events (es : list StoreEvent) (l : list Message) : list Message :=
  fold_left (fun acc e => apply_event e acc) es l.

(** ** Unread counters *)

(** [String.prototype.includes]. *)
Fixpoint includes (s sub : string) : bool :=
  String.prefix sub s
  || match s with
     | EmptyString => false
     | String _ rest => includes rest sub
     end.

(** [profile?.id] compared with a string by [===]. *)
Definition is_profile (o : option string) (s : string) : bool :=
  match o with
  | Some p => s =? p
  | None => false
  end.

(** JavaScript numbers. An unread counter is an integer held in a
    double. [js_round z] is the double nearest to the integer [z], ties
    going to the even significand: integers up to 2^53 in size are exact,
    larger ones are rounded to a multiple of the spacing of doubles at
    their size. The sum of two doubles is the double nearest to their
    exact sum. *)
Definition js_round (z : Z) : Z :=
  if (Z.abs z <=? 2 ^ 53)%Z then z else
  let e := Z.log2 (Z.abs z) - 52 in
  let q := z / 2 ^ e in
  let r := z mod 2 ^ e in
  let half := 2 ^ (e - 1) in
  if (r <? half)%Z then q * 2 ^ e
  else if (half <? r)%Z then (q + 1) * 2 ^ e
  else if Z.even q then q * 2 ^ e
  else (q + 1) * 2 ^ e.

Definition js_add (a b : Z) : Z := js_round (a + b).

(** [incrementUnreadCount] (Chat.tsx 472-499). *)
Definition incrementUnreadCount (targetChatId : string) (message : option Message) : Async unit :=
  let! t := get_tab in
  if (targetChatId =? "") || negb (truthy (profile_id t)) then ret tt else
  if match message with
     | Some m => is_profile (profile_id t) (sender_id m)
     | None => false
     end
  then ret tt else
  modify_tab (fun t =>
    let prev := unreadMessages t in
    let updated := <[targetChatId := js_add (default 0 (prev !! targetChatId)) 1]> prev in
    with_unread updated updated
      (map (fun chat =>
              if rc_id chat =? targetChatId
              then {| rc_id := rc_id chat;
                      unread_count := default 0 (updated !! targetChatId) |}
              else chat)
           (recentChats t))
      t).

(** The realtime INSERT handler (Chat.tsx 671-692). *)
Definition onInsertEvent (newMsg : Message) : Async unit :=
  console >>
  let! t := get_tab in
  if existsb (fun msg => id msg =? id newMsg) (messages t) then console
  else
    let isViewingThisChat := includes (pathname t) ("/chat/" ++ chatId t) in
    (if negb isViewingThisChat && negb (is_profile (profile_id t) (sender_id newMsg))
     then console >> incrementUnreadCount (chatId t) (Some newMsg)
     else ret tt) >>
    modify_tab (fun t => with_messages (messages t ++ [newMsg]) t).

(** The realtime DELETE handler (Chat.tsx 704-709). *)
Definition onDeleteEvent (deletedMessageId : string) : Async unit :=
  console >>
  modify_tab (fun t => with_messages (applyRemoteDelete deletedMessageId (messages t)) t).

(** [handleCustomEvent], and [handleStorageChange] once its record is
    parsed (Chat.tsx 963-984). *)
Definition observeDeletion (deletion : DeletionEvent) : Async unit :=
  let! t := get_tab in
  if de_chatId deletion =? chatId t then
    console >>
    modify_tab (fun t => with_messages (applyRemoteDelete (de_messageId deletion) (messages t)) t)
  else ret tt.

(** ** Sending *)

(** What [supabase.from('messages').insert(...).select().single()]
    resolves to. *)
Inductive InsertResponse :=
| InsertData (data : Message)
| InsertEmpty
| InsertFailed.

Definition tempIdAt (t : Z) : string := "temp-" ++ pretty t.

(** [handleSendMessage] up to its [await] (Chat.tsx 1132-1152);
    [messageContent] is the trimmed draft. The value is the temporary id,
    when a message was queued. *)
Definition handleSendMessage_begin (messageContent : string) (uploading : bool)
  : Async (option string) :=
  let! t := get_tab in
  match profile_id t with
  | Some me =>
      if (messageContent =? "") || uploading then ret None else
      let! s := get_shared in
      let tempId := tempIdAt (now s) in
      let optimisticMessage :=
        {| id := tempId; chat_id := chatId t; sender_id := me;
           content := Some messageContent; created_at := now s;
           media_url := None; media_type := None |} in
      modify_tab (with_newMessage "") >>
      modify_tab (fun t => with_messages (appendOptimistic optimisticMessage (messages t)) t) >>
      ret (Some tempId)
  | None => ret None
  end.

(** [handleSendMessage] from the point where the insert resolves
    (Chat.tsx 1154-1183). *)
Definition handleSendMessage_end (tempId messageContent : string) (r : InsertResponse)
  : Async unit :=
  try_catch
    (match r with
     | InsertFailed => throw "insert failed"
     | InsertData data =>
         modify_shared (fun s => with_messages_table (messages_table s ++ [data]) s) >>
         modify_tab (fun t => with_messages (reconcile tempId data (messages t)) t) >>
         console
     | InsertEmpty => ret tt
     end)
    (fun _ =>
       modify_tab (fun t => with_messages (rollback tempId (messages t)) t) >>
       modify_tab (with_newMessage messageContent) >>
       console).

(** ** Deleting *)

(** [s.split(sep)] for a one-character separator. *)
Fixpoint split_on (sep : Ascii.ascii) (s : string) : list string :=
  match s with
  | EmptyString => [EmptyString]
  | String c rest =>
      let parts := split_on sep rest in
      if Ascii.eqb c sep then EmptyString :: parts
      else match parts with
           | p :: ps => String c p :: ps
           | [] => [String c EmptyString]
           end
  end.

(** [media_url.split('/').pop()]. *)
Definition fileNameOf (media_url : string) : string :=
  List.last (split_on "/"%char media_url) EmptyString.

(** [await supabase.storage.from(bucket).remove([fileName])]. *)
Definition storage_remove (bucket fileName : string) : Async unit :=
  let! r := next_net in
  emit (StorageRemove bucket fileName r) >>
  match r with
  | NetThrow => throw "remove rejected"
  | _ => ret tt
  end.

(** [await supabase.from('messages').delete().eq('id', messageId)];
    the value is the [error] field of the result. *)
Definition messages_delete (messageId : string) : Async bool :=
  let! r := next_net in
  emit (MessagesDelete messageId r) >>
  match r with
  | NetOk =>
      modify_shared (fun s =>
        with_messages_table
          (List.filter (fun m => negb (id m =? messageId)) (messages_table s)) s) >>
      ret false
  | NetError => ret true
  | NetThrow => throw "delete rejected"
  end.

(** [handleDeleteMessage] (Chat.tsx 1324-1386). *)
Definition handleDeleteMessage (deleteForEveryone : bool) : Async unit :=
  let! t := get_tab in
  match deleteModal t, profile_id t with
  | Some dm, Some _ =>
      match find (fun msg => id msg =? dm_messageId dm) (messages t) with
      | None => ret tt
      | Some messageToDelete =>
          try_catch
            (console >>
             (if deleteForEveryone then
                match media_url messageToDelete with
                | Some url =>
                    if url =? "" then ret tt else
                    try_catch
                      (let bucket :=
                         match media_type messageToDelete with
                         | Some video => "videos"
                         | _ => "images"
                         end in
                       let fileName := fileNameOf url in
                       if fileName =? "" then ret tt
                       else storage_remove bucket fileName)
                      (fun _ => console)
                | None => ret tt
                end >>
                let! error := messages_delete (dm_messageId dm) in
                (if error then throw "delete failed" else ret tt) >>
                console >>
                let! s := get_shared in
                let deletionEvent :=
                  {| de_chatId := chatId t;
                     de_messageId := dm_messageId dm;
                     de_timestamp := now s |} in
                emit (LocalStorageSet ("delete_" ++ dm_messageId dm) deletionEvent) >>
                emit (DispatchMessageDeleted deletionEvent) >>
                observeDeletion deletionEvent
              else
                modify_tab (fun t =>
                  with_messages (applyRemoteDelete (dm_messageId dm) (messages t)) t)) >>
             modify_tab (fun t =>
               with_messages (applyRemoteDelete (dm_messageId dm) (messages t)) t) >>
             modify_tab (with_modals None None))
            (fun _ =>
               console >>
               emit (Alert "Failed to delete message. Please try again."))
      end
  | _, _ => ret tt
  end.

(** ** Opening the realtime channel, and opening it again *)

(** The status a channel reports to the callback given to [subscribe]. *)
Inductive SubscribeStatus := SUBSCRIBED | TIMED_OUT | CLOSED | CHANNEL_ERROR.

(** The variables of the mount effect (Chat.tsx 741-746), the state and
    the references the connection code works on, and the timers it arms.
    A timer is represented by its delay in milliseconds. *)
Record MountState := {
  mountedRef : bool;
  hasProfile : bool;                   (* [profile?.id] is truthy *)
  initializationAttempts : Z;
  reconnectTimeout : option Z;         (* the timer armed by [initializeChat] *)
  status : ConnectionStatus;           (* the [connectionStatus] state *)
  renderedStatus : ConnectionStatus;   (* its value at the last render *)
  reconnectTimer : option Z;           (* the timer of the reconnection effect *)
  messagesChannelRef : option nat;     (* the channel stored, by its number *)
  subscriptions : nat;                 (* calls of [channel.subscribe] so far *)
  isLoading : bool;
  retryDelays : list Z                 (* delays of the timers armed to open
                                          the channel again, oldest first *)
}.

Definition maxAttempts : Z := 3.

Definition setConnectionStatus (s : ConnectionStatus) (m : MountState) : MountState :=
  {| mountedRef := mountedRef m; hasProfile := hasProfile m;
     initializationAttempts := initializationAttempts m;
     reconnectTimeout := reconnectTimeout m;
     status := s; renderedStatus := renderedStatus m;
     reconnectTimer := reconnectTimer m;
     messagesChannelRef := messagesChannelRef m;
     subscriptions := subscriptions m; isLoading := isLoading m;
     retryDelays := retryDelays m |}.

Definition setIsLoading (b : bool) (m : MountState) : MountState :=
  {| mountedRef := mountedRef m; hasProfile := hasProfile m;
     initializationAttempts := initializationAttempts m;
     reconnectTimeout := reconnectTimeout m;
     status := status m; renderedStatus := renderedStatus m;
     reconnectTimer := reconnectTimer m;
     messagesChannelRef := messagesChannelRef m;
     subscriptions := subscriptions m; isLoading := b;
     retryDelays := retryDelays m |}.

Definition with_messagesChannelRef (c : option nat) (m : MountState) : MountState :=
  {| mountedRef := mountedRef m; hasProfile := hasProfile m;
     initializationAttempts := initializationAttempts m;
     reconnectTimeout := reconnectTimeout m;
     status := status m; renderedStatus := renderedStatus m;
     reconnectTimer := reconnectTimer m;
     messagesChannelRef := c;
     subscriptions := subscriptions m; isLoading := isLoading m;
     retryDelays := retryDelays m |}.

Definition with_subscriptions (n : nat) (m : MountState) : MountState :=
  {| mountedRef := mountedRef m; hasProfile := hasProfile m;
     initializationAttempts := initializationAttempts m;
     reconnectTimeout := reconnectTimeout m;
     status := status m; renderedStatus := renderedStatus m;
     reconnectTimer := reconnectTimer m;
     messagesChannelRef := messagesChannelRef m;
     subscriptions := n; isLoading := isLoading m;
     retryDelays := retryDelays m |}.

Definition with_initializationAttempts (a : Z) (m : MountState) : MountState :=
  {| mountedRef := mountedRef m; hasProfile := hasProfile m;
     initializationAttempts := a;
     reconnectTimeout := reconnectTimeout m;
     status := status m; renderedStatus := renderedStatus m;
     reconnectTimer := reconnectTimer m;
     messagesChannelRef := messagesChannelRef m;
     subscriptions := subscriptions m; isLoading := isLoading m;
     retryDelays := retryDelays m |}.

Definition with_mountedRef (b : bool) (m : MountState) : MountState :=
  {| mountedRef := b; hasProfile := hasProfile m;
     initializationAttempts := initializationAttempts m;
     reconnectTimeout := reconnectTimeout m;
     status := status m; renderedStatus := renderedStatus m;
     reconnectTimer := reconnectTimer m;
     messagesChannelRef := messagesChannelRef m;
     subscriptions := subscriptions m; isLoading := isLoading m;
     retryDelays := retryDelays m |}.

(** [reconnectTimeout = setTimeout(initializeChat, delay)]. *)
Definition armReconnectTimeout (delay : Z) (m : MountState) : MountState :=
  {| mountedRef := mountedRef m; hasProfile := hasProfile m;
     initializationAttempts := initializationAttempts m;
     reconnectTimeout := Some delay;
     status := status m; renderedStatus := renderedStatus m;
     reconnectTimer := reconnectTimer m;
     messagesChannelRef := messagesChannelRef m;
     subscriptions := subscriptions m; isLoading := isLoading m;
     retryDelays := retryDelays m ++ [delay] |}.

(** [clearTimeout(reconnectTimeout)]. *)
Definition clearReconnectTimeout (m : MountState) : MountState :=
  {| mountedRef := mountedRef m; hasProfile := hasProfile m;
     initializationAttempts := initializationAttempts m;
     reconnectTimeout := None;
     status := status m; renderedStatus := renderedStatus m;
     reconnectTimer := reconnectTimer m;
     messagesChannelRef := messagesChannelRef m;
     subscriptions := subscriptions m; isLoading := isLoading m;
     retryDelays := retryDelays m |}.

(** The timer of the reconnection effect: cleared by the cleanup of the
    effect (or consumed when it fires), armed by its body. *)
Definition clearReconnectTimer (m : MountState) : MountState :=
  {| mountedRef := mountedRef m; hasProfile := hasProfile m;
     initializationAttempts := initializationAttempts m;
     reconnectTimeout := reconnectTimeout m;
     status := status m; renderedStatus := renderedStatus m;
     reconnectTimer := None;
     messagesChannelRef := messagesChannelRef m;
     subscriptions := subscriptions m; isLoading := isLoading m;
     retryDelays := retryDelays m |}.

Definition armReconnectTimer (delay : Z) (m : MountState) : MountState :=
  {| mountedRef := mountedRef m; hasProfile := hasProfile m;
     initializationAttempts := initializationAttempts m;
     reconnectTimeout := reconnectTimeout m;
     status := status m; renderedStatus := renderedStatus m;
     reconnectTimer := Some delay;
     messagesChannelRef := messagesChannelRef m;
     subscriptions := subscriptions m; isLoading := isLoading m;
     retryDelays := retryDelays m ++ [delay] |}.

Definition commit (m : MountState) : MountState :=
  {| mountedRef := mountedRef m; hasProfile := hasProfile m;
     initializationAttempts := initializationAttempts m;
     reconnectTimeout := reconnectTimeout m;
     status := status m; renderedStatus := status m;
     reconnectTimer := reconnectTimer m;
     messagesChannelRef := messagesChannelRef m;
     subscriptions := subscriptions m; isLoading := isLoading m;
     retryDelays := retryDelays m |}.

Definition ConnectionStatus_eqb (a b : ConnectionStatus) : bool :=
  match a, b with
  | connected, connected | connecting, connecting
  | disconnected, disconnected => true
  | _, _ => false
  end.

(** A render of the mounted component, which happens whenever its code
    gives the control back (at an [await], at the end of a callback): the
    state is committed. The reconnection effect (Chat.tsx 914-924) has
    [connectionStatus] among its dependencies, so it runs when the value
    differs from the one of the previous render: the cleanup of its
    previous run clears the timer it had armed, and with ['disconnected']
    its body arms a timer of three seconds. *)
Definition render (m : MountState) : MountState :=
  if negb (mountedRef m) || ConnectionStatus_eqb (status m) (renderedStatus m) then m
  else
    let m := clearReconnectTimer (commit m) in
    match status m with
    | disconnected => armReconnectTimer 3000 m
    | _ => m
    end.

(** [try { ... } catch (error) { ... }] around a computation already run. *)
Definition catch {A} (body : Completion A * MountState)
    (handler : string -> MountState -> Completion A * MountState)
    : Completion A * MountState :=
  match body with
  | (Normal a, m) => (Normal a, m)
  | (Thrown e, m) => handler e m
  end.

(** [fetchInitialData] (Chat.tsx 594-628), as far as the connection is
    concerned; the arguments tell how its two queries end. What it stores
    (the messages, the other user) is state of the message list. *)
Definition fetchInitialData (messagesQuery userQuery : NetResult) (m : MountState)
    : Completion unit * MountState :=
  let attempt :=
    catch
      (let m := render (setIsLoading true m) in
       match messagesQuery with
       | NetThrow => (Thrown "messages query rejected", m)
       | NetError => (Thrown "messagesError", m)
       | NetOk =>
           let m := render m in
           match userQuery with
           | NetThrow => (Thrown "profiles query rejected", m)
           | NetError | NetOk => (Normal tt, m)
           end
       end)
      (fun _ m => (Normal tt, m)) in
  (* finally *)
  let m := snd attempt in
  (fst attempt, if mountedRef m then setIsLoading false m else m).

(** How the steps of [setupRealtimeSubscription] that can throw go: the
    [unsubscribe] of the previous channel, and the creation and
    subscription of the new one. *)
Record OpenOutcome := {
  unsubscribeRejects : bool;
  subscribeThrows : bool
}.

(** [setupRealtimeSubscription] (Chat.tsx 631-737), up to the call of
    [channel.subscribe]; what the channel reports afterwards arrives
    through [onSubscriptionStatus]. *)
Definition setupRealtimeSubscription (o : OpenOutcome) (m : MountState)
    : Completion unit * MountState :=
  if negb (mountedRef m) || negb (hasProfile m) then (Normal tt, m) else
  catch
    (let m := setConnectionStatus connecting m in
     let previous :=
       match messagesChannelRef m with
       | Some _ =>
           let m := render m in                       (* await unsubscribe() *)
           if unsubscribeRejects o then (Thrown "unsubscribe rejected", m)
           else (Normal tt, with_messagesChannelRef None m)
       | None => (Normal tt, m)
       end in
     match previous with
     | (Thrown e, m) => (Thrown e, m)
     | (Normal _, m) =>
         if subscribeThrows o then (Thrown "subscribe threw", m)
         else
           let channel := S (subscriptions m) in
           (Normal tt,
            with_messagesChannelRef (Some channel) (with_subscriptions channel m))
     end)
    (fun _ m => (Normal tt, setConnectionStatus disconnected m)).

(** The callback given to [channel.subscribe] (Chat.tsx 713-729). *)
Definition onSubscriptionStatus (s : SubscribeStatus) (m : MountState) : MountState :=
  match s with
  | SUBSCRIBED => setConnectionStatus connected m
  | _ => setConnectionStatus disconnected m
  end.

(** [initializeChat] (Chat.tsx 747-763); the arguments tell how the
    requests made by the two functions it awaits end. *)
Definition initializeChat (messagesQuery userQuery : NetResult) (o : OpenOutcome)
    (m : MountState) : Completion unit * MountState :=
  catch
    (match fetchInitialData messagesQuery userQuery m with
     | (Thrown e, m) => (Thrown e, m)
     | (Normal _, m) =>
         match setupRealtimeSubscription o m with
         | (Thrown e, m) => (Thrown e, m)
         | (Normal _, m) => (Normal tt, with_initializationAttempts 0 m)
         end
     end)
    (fun _ m =>
       let m := with_initializationAttempts (initializationAttempts m + 1) m in
       if (initializationAttempts m <? maxAttempts)%Z && mountedRef m then
         let delay := Z.min (1000 * 2 ^ initializationAttempts m) 10000 in
         (Normal tt, armReconnectTimeout delay m)
       else (Normal tt, setConnectionStatus disconnected m)).

(** The mount effect (Chat.tsx 741-768), as far as the connection is
    concerned. *)
Definition mount (messagesQuery userQuery : NetResult) (o : OpenOutcome)
    (m : MountState) : MountState :=
  render (snd (initializeChat messagesQuery userQuery o (with_mountedRef true m))).

(** What happens to a mounted view afterwards: the channel reports a
    status; the timer of the reconnection effect fires, and its callback
    (Chat.tsx 916-920) opens the channel again; the view is unmounted,
    and the cleanups of the mount effect (Chat.tsx 770-789) and of the
    reconnection effect (Chat.tsx 922) clear the flag and the timers. *)
Inductive MountEvent :=
| SubscriptionStatus (s : SubscribeStatus)
| ReconnectTimerFired (o : OpenOutcome)
| Unmount.

Definition step (e : MountEvent) (m : MountState) : MountState :=
  match e with
  | SubscriptionStatus s => render (onSubscriptionStatus s m)
  | ReconnectTimerFired o =>
      match reconnectTimer m with
      | None => m
      | Some _ =>
          let m := clearReconnectTimer m in
          if mountedRef m then render (snd (setupRealtimeSubscription o m))
          else m
      end
  | Unmount =>
      clearReconnectTimer (clearReconnectTimeout (with_mountedRef false m))
  end.

Definition run (es : list MountEvent) (m : MountState) : MountState :=
  fold_left (fun m e => step e m) es m.

(** The component before its effects have run. *)
Definition mountState0 : MountState :=
  {| mountedRef := true; hasProfile := true;
     initializationAttempts := 0; reconnectTimeout := None;
     status := connecting; renderedStatus := connecting;
     reconnectTimer := None; messagesChannelRef := None;
     subscriptions := 0; isLoading := true; retryDelays := [] |}.

(** ** Sample states

    A user [alice] with one conversation [c1], nothing sent yet, the
    backend reachable. *)

Definition ref0 : OnlineStatusRef :=
  {| isOnline := false; lastHeartbeat := 0; tabCount := 0%nat;
     heartbeatInterval := None; lastVisibilityChange := 0;
     isMinimized := false; minimizeTimeout := None |}.

Definition tab0 : Tab :=
  {| profile_id := Some "alice"; chatId := "c1"; pathname := "/";
     onlineStatusRef := ref0; intervals := ∅; next_handle := 1%positive;
     messages := []; connectionStatus := connecting;
     unreadMessages := ∅; saved_unread := ∅; recentChats := [];
     newMessage := "hi"; deleteModal := None; messageMenu := None |}.

Definition offline0 : PresenceRecord :=
  {| is_online := false; last_seen := None; last_heartbeat := None |}.

Definition shared0 : Shared :=
  {| now := 1700000000000; net := []; profiles_row := offline0;
     messages_table := []; active_tabs := ∅; effects := [] |}.

Definition world0 : World := {| shared := shared0; tab := tab0 |}.

(** The row the backend creates for the text "hi" sent by [alice]. *)
Definition confirmed_hi : Message :=
  {| id := "m1"; chat_id := "c1"; sender_id := "alice";
     content := Some "hi"; created_at := 1700000000050;
     media_url := None; media_type := None |}.

(** Its optimistic stand-in. *)
Definition pending_hi : Message :=
  {| id := "temp-1700000000000"; chat_id := "c1"; sender_id := "alice";
     content := Some "hi"; created_at := 1700000000000;
     media_url := None; media_type := None |}.

(** A message of the other participant. *)
Definition hello_bob : Message :=
  {| id := "m2"; chat_id := "c1"; sender_id := "bob";
     content := Some "hello"; created_at := 1700000000100;
     media_url := None; media_type := None |}.

(** The conversation with two confirmed messages, [alice] about to
    delete her own. *)
Definition world_chat : World :=
  {| shared := with_messages_table [hello_bob; confirmed_hi] shared0;
     tab := with_modals (Some {| dm_messageId := "m1"; dm_isOwnMessage := true |})
              (Some "m1")
              (with_messages [hello_bob; confirmed_hi] tab0) |}.

(** The two records [updateOnlineStatus] writes, at time [t]. *)
Definition presence_write (online : bool) (t : Z) : PresenceUpdate :=
  {| set_is_online := Some online;
     set_last_seen := Some (if online then None else Some t);
     set_last_heartbeat := Some (if online then Some t else None) |}.

Definition presence_shape (online : bool) (t : Z) : PresenceRecord :=
  {| is_online := online;
     last_seen := if online then None else Some t;
     last_heartbeat := if online then Some t else None |}.

(** The record a heartbeat writes, at time [t]. *)
Definition heartbeat_write (t : Z) : PresenceUpdate :=
  {| set_is_online := Some true;
     set_last_seen := None;
     set_last_heartbeat := Some (Some t) |}.

(** What a handler adds to the trace. *)
Definition issued {A} (m : Async A) (w : World) : list Effect :=
  skipn (length (effects (shared w))) (effects (shared (exec m w))).

(** The state the interface renders. *)
Definition visible (t : Tab) :=
  (messages t, connectionStatus t, unreadMessages t, recentChats t,
   newMessage t, deleteModal t, messageMenu t).

(** A handler that lets no exception escape, and one that leaves the
    rendered state alone. *)
Definition nothrow {A} (m : Async A) : Prop := forall w, throws m w = false.
Definition frame {A} (m : Async A) : Prop :=
  forall w, visible (tab (exec m w)) = visible (tab w).

(** The next handler runs at time [t] in the tab whose state is [tb]. *)
Definition switch_tab (t : Z) (tb : Tab) (w : World) : World :=
  {| shared := with_now t (shared w); tab := tb |}.

(** The registry after a tab registers or unregisters at time [t]. *)
Definition registry_after (tabId : string) (increment : bool) (t : Z)
    (tabs : gmap string Z) : gmap string Z :=
  if increment then <[tabId := t]> tabs else delete tabId tabs.

(** The environment between two handlers: the clock moves to [t] and the
    network behaves as [n] from then on. *)
Definition later (t : Z) (n : list NetResult) (w : World) : World :=
  {| shared := with_net n (with_now t (shared w)); tab := tab w |}.

(** A tab of [alice] that believes it is online while her row says
    offline; the read and the first write will succeed, the heartbeat
    write will fail. *)
Definition world_split_brain : World :=
  {| shared := with_net [NetOk; NetOk; NetError] shared0;
     tab := with_ref (with_isOnline true ref0) tab0 |}.

(** The heartbeat interval of a tab is armed. *)
Definition heartbeat_alive (t : Tab) : Prop :=
  exists h, heartbeatInterval (onlineStatusRef t) = Some h /\ h ∈ intervals t.

(** The states in which the tabs [A] and [B] are left by the calls
    [registerTab(A)], [registerTab(B)], [unregisterTab(A)] and
    [unregisterTab(B)], the last three made at the times [t2], [t3] and
    [t4]; [tB] is the state of the second tab before it registers. *)
Definition tabs_after_sequence (A B : string) (t2 t3 t4 : Z) (tB : Tab) (w : World)
    : Tab * Tab :=
  let w1 := exec (registerTab A) w in
  let w2 := exec (registerTab B) (switch_tab t2 tB w1) in
  let w3 := exec (unregisterTab A) (switch_tab t3 (tab w1) w2) in
  let w4 := exec (unregisterTab B) (switch_tab t4 (tab w2) w3) in
  (tab w3, tab w4).

(** No heartbeat is running in either tab. *)
Definition heartbeat_stopped (tabs : Tab * Tab) : Prop :=
  ~ heartbeat_alive (fst tabs) /\ ~ heartbeat_alive (snd tabs).

(** The first tab of [alice], registered 20 seconds ago, at the time of
    its first tick; the next request will be rejected. *)
Definition world_read_rejected : World :=
  later 1700000020000 [NetThrow] (exec (registerTab "A") world0).

(** The tick of the heartbeat interval writes a heartbeat that carries
    the current time. *)
Definition tick_writes_heartbeat (w : World) : Prop :=
  exists r, In (ProfilesUpdate (heartbeat_write (now (shared w))) r)
               (issued heartbeatTick w).

(** [alice] marked online by a tab that died 40 seconds ago. *)
Definition world_stale : World :=
  {| shared := with_profiles_row
                 {| is_online := true; last_seen := None;
                    last_heartbeat := Some (1700000000000 - 40000) |} shared0;
     tab := tab0 |}.

(** The list after [alice] has sent "hi" and the realtime copy of the
    stored row has arrived before the confirmation: the row is listed
    twice. *)
Definition world_duplicated : World :=
  exec (handleSendMessage_end (tempIdAt (now shared0)) "hi" (InsertData confirmed_hi))
    (exec (onInsertEvent confirmed_hi)
       (exec (handleSendMessage_begin "hi" false) world0)).

(** One remote delete takes at most one entry off the list. *)
Definition removes_at_most_one (deletedMessageId : string) (w : World) : Prop :=
  (length (messages (tab w))
   <= length (messages (tab (exec (onDeleteEvent deletedMessageId) w))) + 1)%nat.

(** Delete wins over a late reconciliation: after the delete of the
    confirmed id and then the reconciliation, the id is not listed. *)
Definition delete_wins (l : list Message) (tempId : string) (confirmed : Message) : Prop :=
  ~ In (id confirmed)
       (ids (reconcile tempId confirmed (applyRemoteDelete (id confirmed) l))).

(** An attempt to open the channel that goes through: nothing throws,
    the channel is subscribed. *)
Definition opened : OpenOutcome :=
  {| unsubscribeRejects := false; subscribeThrows := false |}.

(** Consecutive failed attempts to open the channel, each reported by the
    channel with the given status: the first attempt is the one of the
    mount; every further one is made when the reconnection timer fires. *)
Definition failed_opens (ss : list SubscribeStatus) : list MountEvent :=
  match ss with
  | [] => []
  | s :: rest =>
      SubscriptionStatus s
      :: flat_map (fun s => [ReconnectTimerFired opened; SubscriptionStatus s]) rest
  end.

(** A view whose first three attempts to open the channel have failed. *)
Definition three_failed_opens : MountState :=
  run (failed_opens [CHANNEL_ERROR; TIMED_OUT; CHANNEL_ERROR])
    (mount NetOk NetOk opened mountState0).

(** A mounted view that shows ['disconnected'] and waits for the timer
    of the reconnection effect, with the channel of its last attempt
    stored. *)
Definition retrying (m : MountState) : Prop :=
  mountedRef m = true
  /\ hasProfile m = true
  /\ status m = disconnected
  /\ renderedStatus m = disconnected
  /\ reconnectTimer m = Some 3000
  /\ messagesChannelRef m <> None.

(** The retries have waited one, two and four seconds, no further retry
    is pending, and the status shown is ['disconnected']. *)
Definition backs_off_then_stops (m : MountState) : Prop :=
  retryDelays m = [1000; 2000; 4000]
  /\ reconnectTimer m = None
  /\ reconnectTimeout m = None
  /\ status m = disconnected.

(** * Properties *)

(** ** Evaluation of handlers *)

Ltac unfold_async :=
  unfold exec, throws, try_catch, bind, ret, throw, console, emit,
    modify_ref, modify_tab, modify_shared, get_tab, get_shared in *.

(** ** The message list *)

Section MessageList.

Implicit Types (l prev : list Message) (m data : Message) (i tempId : string).

Lemma existsb_id_In i l :
  existsb (fun msg => id msg =? i) l = true <-> In i (ids l).
Proof.
  unfold ids. rewrite existsb_exists, in_map_iff. split.
  - intros (x & Hx & E). apply String.eqb_eq in E. eauto.
  - intros (x & E & Hx). exists x. split; [exact Hx|]. now apply String.eqb_eq.
Qed.

Lemma existsb_id_not_In i l :
  existsb (fun msg => id msg =? i) l = false <-> ~ In i (ids l).
Proof.
  rewrite <- existsb_id_In. destruct (existsb _ l); intuition congruence.
Qed.

Lemma ids_app l1 l2 : ids (l1 ++ l2) = (ids l1 ++ ids l2)%list.
Proof. apply map_app. Qed.

Lemma In_ids_delete i j l :
  In j (ids (applyRemoteDelete i l)) <-> In j (ids l) /\ j <> i.
Proof.
  unfold ids, applyRemoteDelete. rewrite !in_map_iff. split.
  - intros (x & E & Hx). apply filter_In in Hx as [Hx Hne].
    apply negb_true_iff, String.eqb_neq in Hne. subst j. eauto.
  - intros [(x & E & Hx) Hne]. exists x. split; [exact E|].
    apply filter_In. split; [exact Hx|].
    apply negb_true_iff, String.eqb_neq. congruence.
Qed.

Lemma NoDup_ids_delete i l :
  List.NoDup (ids l) -> List.NoDup (ids (applyRemoteDelete i l)).
Proof.
  unfold ids, applyRemoteDelete. induction l as [|x l IH]; simpl; intros H.
  - constructor.
  - inversion H as [|? ? Hx Hl]; subst.
    destruct (negb (id x =? i)); simpl; [|now apply IH].
    constructor; [|now apply IH].
    intros Hin. apply Hx. apply in_map_iff in Hin as (y & E & Hy).
    apply filter_In in Hy as [Hy _]. apply in_map_iff. eauto.
Qed.

Lemma NoDup_ids_insert m l :
  List.NoDup (ids l) -> List.NoDup (ids (applyRemoteInsert m l)).
Proof.
  intros H. unfold applyRemoteInsert.
  destruct (existsb _ l) eqn:E; [exact H|].
  apply existsb_id_not_In in E.
  rewrite ids_app. simpl.
  apply List.NoDup_app; [exact H | repeat constructor; intros [] |].
  intros a Ha [<-|[]]. contradiction.
Qed.

(** The two remote handlers keep ids distinct, whatever their order. *)
Lemma NoDup_ids_remote_events (es : list StoreEvent) l :
  Forall (fun e => match e with
                   | RemoteInsert _ | RemoteDelete _ => True
                   | _ => False
                   end) es ->
  List.NoDup (ids l) -> List.NoDup (ids (apply_events es l)).
Proof.
  unfold apply_events. revert l.
  induction es as [|e es IH]; simpl; intros l Hes Hl; [exact Hl|].
  inversion Hes as [|? ? He Hes']; subst. apply IH; [exact Hes'|].
  destruct e; simpl; try contradiction.
  - now apply NoDup_ids_insert.
  - now apply NoDup_ids_delete.
Qed.

Lemma applyRemoteInsert_present m l :
  In (id m) (ids l) -> applyRemoteInsert m l = l.
Proof.
  intros H. unfold applyRemoteInsert.
  now rewrite (proj2 (existsb_id_In _ _) H).
Qed.

Lemma In_ids_insert m l : In (id m) (ids (applyRemoteInsert m l)).
Proof.
  unfold applyRemoteInsert. destruct (existsb _ l) eqn:E.
  - now apply existsb_id_In.
  - rewrite ids_app. apply in_or_app. right. now left.
Qed.

Lemma applyRemoteInsert_idem m l :
  applyRemoteInsert m (applyRemoteInsert m l) = applyRemoteInsert m l.
Proof. apply applyRemoteInsert_present, In_ids_insert. Qed.

Lemma filter_idem {A} (f : A -> bool) (xs : list A) :
  List.filter f (List.filter f xs) = List.filter f xs.
Proof.
  induction xs as [|x xs IH]; simpl; [reflexivity|].
  destruct (f x) eqn:E; simpl; rewrite ?E, IH; reflexivity.
Qed.

Lemma applyRemoteDelete_idem i l :
  applyRemoteDelete i (applyRemoteDelete i l) = applyRemoteDelete i l.
Proof. apply filter_idem. Qed.

Lemma applyRemoteDelete_absent i l :
  ~ In i (ids l) -> applyRemoteDelete i l = l.
Proof.
  unfold applyRemoteDelete, ids. induction l as [|x l IH]; simpl; intros H.
  - reflexivity.
  - destruct (String.eqb_spec (id x) i) as [E|E]; simpl.
    + exfalso. apply H. now left.
    + f_equal. apply IH. intros Hin. apply H. now right.
Qed.

(** A delete removes exactly the entries that carry the id. *)
Lemma length_delete i l :
  (length (applyRemoteDelete i l) + count_occ string_dec (ids l) i = length l)%nat.
Proof.
  unfold applyRemoteDelete, ids. induction l as [|x l IH]; simpl; [reflexivity|].
  destruct (String.eqb_spec (id x) i) as [E|E]; simpl.
  - destruct (string_dec (id x) i); [lia|contradiction].
  - destruct (string_dec (id x) i); [contradiction|lia].
Qed.

Lemma length_delete_NoDup i l :
  List.NoDup (ids l) -> (length l <= length (applyRemoteDelete i l) + 1)%nat.
Proof.
  intros H. pose proof (length_delete i l) as E.
  pose proof (proj1 (List.NoDup_count_occ string_dec (ids l)) H i). lia.
Qed.

Lemma In_reconcile tempId data l :
  In tempId (ids l) -> In data (reconcile tempId data l).
Proof.
  unfold ids, reconcile. intros H. apply in_map_iff in H as (x & E & Hx).
  apply in_map_iff. exists x. split; [|exact Hx].
  now rewrite (proj2 (String.eqb_eq _ _) E).
Qed.

Lemma In_ids_reconcile j tempId data l :
  In j (ids (reconcile tempId data l)) ->
  j = id data \/ (In j (ids l) /\ j <> tempId).
Proof.
  unfold ids, reconcile. rewrite map_map. intros H.
  apply in_map_iff in H as (x & E & Hx).
  destruct (String.eqb_spec (id x) tempId) as [Et|Et].
  - left. congruence.
  - right. split; [apply in_map_iff; eauto | congruence].
Qed.

Lemma ids_reconcile tempId data l :
  ids (reconcile tempId data l)
  = map (fun j => if j =? tempId then id data else j) (ids l).
Proof.
  unfold ids, reconcile. rewrite !map_map. apply map_ext.
  intros x. now destruct (id x =? tempId).
Qed.

(** Reconciliation keeps ids distinct when the confirmed id is new. *)
Lemma NoDup_ids_reconcile tempId data l :
  List.NoDup (ids l) -> ~ In (id data) (ids l) ->
  List.NoDup (ids (reconcile tempId data l)).
Proof.
  intros H Hn. rewrite ids_reconcile.
  apply List.NoDup_map_NoDup_ForallPairs; [|exact H].
  intros a b Ha Hb.
  destruct (String.eqb_spec a tempId), (String.eqb_spec b tempId);
    intros E; congruence.
Qed.

(** C1. The message list can hold two entries with the same id: when the
    realtime copy of a sent message is delivered between the optimistic
    append and the reconciliation, the reconciliation rewrites the
    temporary entry into a second copy of the confirmed message. *)
Theorem send_then_remote_copy_duplicates :
  let w1 := exec (handleSendMessage_begin "hi" false) world0 in
  let w2 := exec (onInsertEvent confirmed_hi) w1 in
  let w3 := exec (handleSendMessage_end (tempIdAt (now shared0)) "hi"
                    (InsertData confirmed_hi)) w2 in
  fst (handleSendMessage_begin "hi" false world0) = Normal (Some (tempIdAt (now shared0)))
  /\ messages (tab w1) = [pending_hi]
  /\ messages (tab w2) = [pending_hi; confirmed_hi]
  /\ messages (tab w3) = [confirmed_hi; confirmed_hi]
  /\ ~ List.NoDup (ids (messages (tab w3))).
Proof.
  repeat split; try (vm_compute; reflexivity).
  intros H. vm_compute in H. inversion H as [|? ? Hin _]; subst.
  apply Hin. now left.
Qed.

(** C2, as the specification states it, fails on the list holding the
    pending message alone. *)
Lemma delete_wins_fails : ~ delete_wins [pending_hi] (id pending_hi) confirmed_hi.
Proof.
  unfold delete_wins. intros H. apply H. vm_compute. now left.
Qed.

(** C2, amended. There is no tombstone set. A delete that runs before
    the reconciliation leaves the pending entry in place, and the
    reconciliation then puts the confirmed message in the list; a delete
    that runs after the reconciliation removes it. *)
Theorem delete_then_reconcile_keeps_message l tempId (confirmed : Message) :
  In tempId (ids l) ->
  tempId <> id confirmed ->
  In tempId (ids (applyRemoteDelete (id confirmed) l))
  /\ In confirmed (reconcile tempId confirmed (applyRemoteDelete (id confirmed) l))
  /\ ~ In (id confirmed)
         (ids (applyRemoteDelete (id confirmed) (reconcile tempId confirmed l))).
Proof.
  intros Hin Hne.
  assert (Hkept : In tempId (ids (applyRemoteDelete (id confirmed) l)))
    by (apply In_ids_delete; tauto).
  split; [exact Hkept|]. split.
  - now apply In_reconcile.
  - intros H. apply In_ids_delete in H. tauto.
Qed.

Lemma delete_then_reconcile_keeps_message_witness :
  In confirmed_hi
     (reconcile (id pending_hi) confirmed_hi
        (applyRemoteDelete (id confirmed_hi) [hello_bob; pending_hi])).
Proof.
  apply (delete_then_reconcile_keeps_message
           [hello_bob; pending_hi] (id pending_hi) confirmed_hi).
  - simpl. right. left. reflexivity.
  - vm_compute. discriminate.
Defined.

End MessageList.

(** ** The realtime handlers *)

Section RealtimeHandlers.

Implicit Types (w : World) (m : Message) (i : string) (d : DeletionEvent).

Lemma onInsertEvent_messages m w :
  messages (tab (exec (onInsertEvent m) w))
  = applyRemoteInsert m (messages (tab w)).
Proof.
  unfold onInsertEvent, applyRemoteInsert, incrementUnreadCount. unfold_async.
  simpl. destruct (existsb _ (messages (tab w))); [reflexivity|].
  destruct (negb (includes _ _) && negb (is_profile _ _)); simpl; [|reflexivity].
  destruct ((chatId (tab w) =? "") || negb (truthy (profile_id (tab w))));
    simpl; [reflexivity|].
  destruct (is_profile _ _); reflexivity.
Qed.

Lemma onInsertEvent_present m w :
  In (id m) (ids (messages (tab w))) -> exec (onInsertEvent m) w = w.
Proof.
  intros H. apply existsb_id_In in H.
  unfold onInsertEvent. unfold_async. simpl. now rewrite H.
Qed.

Lemma onInsertEvent_never_throws m w : throws (onInsertEvent m) w = false.
Proof.
  unfold onInsertEvent, incrementUnreadCount. unfold_async. simpl.
  destruct (existsb _ (messages (tab w))); [reflexivity|].
  destruct (negb (includes _ _) && negb (is_profile _ _)); simpl; [|reflexivity].
  destruct ((chatId (tab w) =? "") || negb (truthy (profile_id (tab w))));
    simpl; [reflexivity|].
  destruct (is_profile _ _); reflexivity.
Qed.

Lemma onDeleteEvent_exec i w :
  exec (onDeleteEvent i) w
  = {| shared := shared w;
       tab := with_messages (applyRemoteDelete i (messages (tab w))) (tab w) |}.
Proof. reflexivity. Qed.

Lemma observeDeletion_exec d w :
  exec (observeDeletion d) w
  = if de_chatId d =? chatId (tab w)
    then exec (onDeleteEvent (de_messageId d)) w
    else w.
Proof.
  unfold observeDeletion, onDeleteEvent. unfold_async. simpl.
  now destruct (de_chatId d =? chatId (tab w)).
Qed.

Lemma onDeleteEvent_idem i w :
  exec (onDeleteEvent i) (exec (onDeleteEvent i) w) = exec (onDeleteEvent i) w.
Proof.
  rewrite !onDeleteEvent_exec. simpl. unfold with_messages. simpl.
  now rewrite applyRemoteDelete_idem.
Qed.




(** Sums that stay within the integers a double holds exactly are exact. *)
Lemma js_add_exact (a b : Z) : Z.abs (a + b) <= 2 ^ 53 -> js_add a b = a + b.
Proof.
  intros H. unfold js_add, js_round.
  now rewrite (proj2 (Z.leb_le _ _) H).
Qed.

(** At 2^53 adding one changes nothing. *)
Lemma js_add_saturates : js_add (2 ^ 53) 1 = 2 ^ 53.
Proof. reflexivity. Qed.

(** C8. For an insert event whose id is not yet listed, the handler
    appends the message, and it adds one to the unread counter of the
    conversation exactly when the path of the page does not contain the
    path of this conversation and the sender is not the local user; the
    counters of other conversations never change, and in every other case
    the whole mapping is unchanged. The counter is a JavaScript number;
    it is taken of magnitude below 2^53, where adding one is exact. *)
Theorem onInsertEvent_unread m w (me : string) :
  ~ In (id m) (ids (messages (tab w))) ->
  profile_id (tab w) = Some me ->
  me <> "" ->
  chatId (tab w) <> "" ->
  Z.abs (default 0 (unreadMessages (tab w) !! chatId (tab w))) < 2 ^ 53 ->
  let chat := chatId (tab w) in
  let viewing := includes (pathname (tab w)) ("/chat/" ++ chat) in
  let w' := exec (onInsertEvent m) w in
  messages (tab w') = (messages (tab w) ++ [m])%list
  /\ (viewing = false -> sender_id m <> me ->
      unreadMessages (tab w') !! chat
      = Some (default 0 (unreadMessages (tab w) !! chat) + 1)
      /\ forall c, c <> chat ->
           unreadMessages (tab w') !! c = unreadMessages (tab w) !! c)
  /\ (viewing = true \/ sender_id m = me ->
      unreadMessages (tab w') = unreadMessages (tab w)).
Proof.
  intros Hnew Hme Hne Hchat Hcount chat viewing w'.
  apply existsb_id_not_In in Hnew.
  assert (Htruthy : truthy (profile_id (tab w)) = true).
  { rewrite Hme. simpl. apply negb_true_iff. now apply String.eqb_neq. }
  assert (Hc : (chatId (tab w) =? "") = false) by now apply String.eqb_neq.
  assert (Hadd : js_add (default 0 (unreadMessages (tab w) !! chat)) 1
                 = default 0 (unreadMessages (tab w) !! chat) + 1).
  { apply js_add_exact. subst chat. lia. }
  subst w'. unfold onInsertEvent, incrementUnreadCount. unfold_async. simpl.
  rewrite Hnew, Hme. fold chat. fold viewing. simpl.
  destruct viewing eqn:Ev; simpl.
  { split; [reflexivity|]. split; [discriminate|reflexivity]. }
  destruct (String.eqb_spec (sender_id m) me) as [Es|Es]; simpl.
  { split; [reflexivity|]. split; [tauto|reflexivity]. }
  fold chat in Hc. rewrite Hc, !Hme. simpl.
  rewrite (proj2 (String.eqb_neq me "") Hne).
  rewrite (proj2 (String.eqb_neq (sender_id m) me) Es). simpl.
  split; [reflexivity|]. split.
  - intros _ _. split.
    + rewrite lookup_insert_eq. now rewrite Hadd.
    + intros c Hcne. now apply lookup_insert_ne.
  - intros [?|?]; congruence.
Qed.

Lemma onInsertEvent_unread_witness :
  unreadMessages (tab (exec (onInsertEvent hello_bob) world0)) !! "c1" = Some 1.
Proof.
  refine (proj1 (proj1 (proj2 (onInsertEvent_unread hello_bob world0 "alice"
                                  _ eq_refl _ _ _)) eq_refl _)).
  - simpl. tauto.
  - discriminate.
  - simpl. discriminate.
  - reflexivity.
  - simpl. discriminate.
Defined.

End RealtimeHandlers.

(** ** Initial mount *)

Section InitialMount.

Implicit Types (m : MountState) (o : OpenOutcome) (s : SubscribeStatus).

(** The two functions awaited by [initializeChat] handle their own
    errors. *)
Lemma fetchInitialData_never_throws (messagesQuery userQuery : NetResult) m :
  fst (fetchInitialData messagesQuery userQuery m) = Normal tt.
Proof.
  unfold fetchInitialData. now destruct messagesQuery, userQuery.
Qed.

Lemma setupRealtimeSubscription_never_throws o m :
  fst (setupRealtimeSubscription o m) = Normal tt.
Proof.
  unfold setupRealtimeSubscription.
  destruct (negb (mountedRef m) || negb (hasProfile m)); [reflexivity|].
  simpl. destruct (messagesChannelRef m); simpl;
    destruct (unsubscribeRejects o); simpl;
    destruct (subscribeThrows o); reflexivity.
Qed.

Lemma render_keeps_initialization m :
  initializationAttempts (render m) = initializationAttempts m
  /\ reconnectTimeout (render m) = reconnectTimeout m.
Proof.
  unfold render.
  destruct (negb (mountedRef m) || _); [now split|].
  simpl. now destruct (status m).
Qed.

Lemma fetchInitialData_keeps_initialization (messagesQuery userQuery : NetResult) m :
  reconnectTimeout (snd (fetchInitialData messagesQuery userQuery m))
  = reconnectTimeout m.
Proof.
  unfold fetchInitialData.
  destruct messagesQuery, userQuery; simpl;
    repeat match goal with
           | |- context [if ?b then _ else _] => destruct b; simpl
           end;
    rewrite ?(proj2 (render_keeps_initialization _)); simpl;
    rewrite ?(proj2 (render_keeps_initialization _)); reflexivity.
Qed.

Lemma setupRealtimeSubscription_keeps_initialization o m :
  reconnectTimeout (snd (setupRealtimeSubscription o m)) = reconnectTimeout m.
Proof.
  unfold setupRealtimeSubscription.
  destruct (negb (mountedRef m) || negb (hasProfile m)); [reflexivity|].
  simpl. destruct (messagesChannelRef m); simpl;
    destruct (unsubscribeRejects o); simpl;
    destruct (subscribeThrows o); simpl;
    rewrite ?(proj2 (render_keeps_initialization _)); reflexivity.
Qed.

(** So the [catch] of [initializeChat] is never entered: whatever the
    requests do, the attempt counter is zero afterwards and the backoff
    timer is not armed. *)
Lemma initializeChat_never_backs_off (messagesQuery userQuery : NetResult) o m :
  fst (initializeChat messagesQuery userQuery o m) = Normal tt
  /\ initializationAttempts (snd (initializeChat messagesQuery userQuery o m)) = 0
  /\ reconnectTimeout (snd (initializeChat messagesQuery userQuery o m))
     = reconnectTimeout m.
Proof.
  unfold initializeChat.
  pose proof (fetchInitialData_never_throws messagesQuery userQuery m) as Hf.
  pose proof (fetchInitialData_keeps_initialization messagesQuery userQuery m) as Hf'.
  destruct (fetchInitialData messagesQuery userQuery m) as [[[]|e] m1];
    simpl in Hf, Hf'; [|discriminate].
  pose proof (setupRealtimeSubscription_never_throws o m1) as Hs.
  pose proof (setupRealtimeSubscription_keeps_initialization o m1) as Hs'.
  destruct (setupRealtimeSubscription o m1) as [[[]|e] m2];
    simpl in Hs, Hs'; [|discriminate].
  simpl. repeat split. congruence.
Qed.

(** The first attempt, made by the mount effect, and its failure. *)
Lemma first_open_fails (messagesQuery userQuery : NetResult) s :
  s <> SUBSCRIBED ->
  let m := step (SubscriptionStatus s) (mount messagesQuery userQuery opened mountState0) in
  retrying m
  /\ retryDelays m = [3000]
  /\ subscriptions m = 1%nat
  /\ initializationAttempts m = 0
  /\ reconnectTimeout m = None.
Proof.
  intros Hs. unfold retrying.
  destruct messagesQuery, userQuery, s; try congruence;
    vm_compute; repeat split; discriminate.
Qed.

(** A further attempt, made when the reconnection timer fires, and its
    failure. *)
Lemma next_open_fails s m :
  s <> SUBSCRIBED ->
  retrying m ->
  let m' := run [ReconnectTimerFired opened; SubscriptionStatus s] m in
  retrying m'
  /\ retryDelays m' = (retryDelays m ++ [3000])%list
  /\ subscriptions m' = S (subscriptions m)
  /\ initializationAttempts m' = initializationAttempts m
  /\ reconnectTimeout m' = reconnectTimeout m.
Proof.
  intros Hs (Hm & Hp & Hst & Hr & Ht & Hc).
  destruct m as [mt hp a rt st rs tm ch n il ds]. simpl in *. subst.
  destruct ch as [c|]; [|congruence].
  unfold retrying.
  destruct s; try congruence; cbn; repeat split; discriminate.
Qed.

Lemma failed_retries (ss : list SubscribeStatus) m :
  Forall (fun s => s <> SUBSCRIBED) ss ->
  retrying m ->
  let m' := run (flat_map (fun s => [ReconnectTimerFired opened; SubscriptionStatus s]) ss) m in
  retrying m'
  /\ retryDelays m' = (retryDelays m ++ repeat 3000 (length ss))%list
  /\ subscriptions m' = (subscriptions m + length ss)%nat
  /\ initializationAttempts m' = initializationAttempts m
  /\ reconnectTimeout m' = reconnectTimeout m.
Proof.
  intros Hss. revert m. induction Hss as [|s ss Hs _ IH]; intros m Hm.
  - simpl. rewrite app_nil_r, Nat.add_0_r. split; [exact Hm|]. now repeat split.
  - destruct (next_open_fails s m Hs Hm) as (Hm1 & Hd1 & Hn1 & Ha1 & Ht1).
    cbv zeta in *.
    change (run (flat_map _ (s :: ss)) m)
      with (run (flat_map (fun s => [ReconnectTimerFired opened; SubscriptionStatus s]) ss)
              (run [ReconnectTimerFired opened; SubscriptionStatus s] m)).
    destruct (IH _ Hm1) as (Hm2 & Hd2 & Hn2 & Ha2 & Ht2).
    split; [exact Hm2|].
    rewrite Hd2, Hn2, Ha2, Ht2, Hd1, Hn1, Ha1, Ht1.
    repeat split.
    + now rewrite <- app_assoc.
    + simpl. lia.
Qed.

(** Once the view is unmounted nothing opens the channel again. *)
Lemma unmounted_is_final (es : list MountEvent) m :
  mountedRef m = false ->
  reconnectTimer m = None ->
  let m' := run es m in
  mountedRef m' = false
  /\ reconnectTimer m' = None
  /\ subscriptions m' = subscriptions m
  /\ retryDelays m' = retryDelays m.
Proof.
  revert m. induction es as [|e es IH]; intros m Hm Ht; [now repeat split|].
  cbv zeta. change (run (e :: es) m) with (run es (step e m)).
  assert (H : mountedRef (step e m) = false
              /\ reconnectTimer (step e m) = None
              /\ subscriptions (step e m) = subscriptions m
              /\ retryDelays (step e m) = retryDelays m).
  { destruct e as [s|o|]; simpl.
    - unfold render.
      replace (mountedRef (onSubscriptionStatus s m)) with false
        by now destruct s.
      simpl. now destruct s.
    - rewrite Ht. now repeat split.
    - now repeat split. }
  destruct H as (Hm1 & Ht1 & Hn1 & Hd1).
  destruct (IH _ Hm1 Ht1) as (Hm2 & Ht2 & Hn2 & Hd2).
  cbv zeta in *. repeat split; congruence.
Qed.




End InitialMount.

(** ** Deleting a message *)

Section DeleteMessage.

Implicit Types (w : World).

(** C10. "Delete for me" leaves everything outside the tab as it was:
    no request to the backend, no removal from storage, no cross-tab
    record and no [messageDeleted] event, hence the same authoritative
    table; it lets no exception escape; and when the message of the open
    dialog is listed, it removes the entries with that id from the local
    list and closes the dialog and the menu. *)
Theorem delete_for_me_is_local w :
  let w' := exec (handleDeleteMessage false) w in
  shared w' = shared w
  /\ throws (handleDeleteMessage false) w = false
  /\ (forall dm (me : string),
        deleteModal (tab w) = Some dm ->
        profile_id (tab w) = Some me ->
        In (dm_messageId dm) (ids (messages (tab w))) ->
        messages (tab w') = applyRemoteDelete (dm_messageId dm) (messages (tab w))
        /\ ~ In (dm_messageId dm) (ids (messages (tab w')))
        /\ deleteModal (tab w') = None
        /\ messageMenu (tab w') = None).
Proof.
  unfold handleDeleteMessage. unfold_async. simpl.
  destruct (deleteModal (tab w)) as [dm|] eqn:Edm;
    [|repeat split; intros; discriminate].
  destruct (profile_id (tab w)) as [me|] eqn:Eme;
    [|repeat split; intros; discriminate].
  destruct (find _ (messages (tab w))) as [msg|] eqn:Efind; simpl.
  - split; [reflexivity|]. split; [reflexivity|].
    intros dm' me' [= <-] _ Hin.
    rewrite applyRemoteDelete_idem.
    repeat split; try reflexivity.
    intros H. apply In_ids_delete in H. tauto.
  - split; [reflexivity|]. split; [reflexivity|].
    intros dm' me' [= <-] _ Hin. exfalso.
    apply existsb_id_In, existsb_exists in Hin as (x & Hx & E).
    now rewrite (find_none _ _ Efind x Hx) in E.
Qed.

Lemma delete_for_me_is_local_witness :
  messages (tab (exec (handleDeleteMessage false) world_chat)) = [hello_bob]
  /\ messages_table (shared (exec (handleDeleteMessage false) world_chat))
     = [hello_bob; confirmed_hi].
Proof.
  destruct (delete_for_me_is_local world_chat) as (Hshared & _ & Hlocal).
  split.
  - refine (proj1 (Hlocal _ "alice" eq_refl eq_refl _)).
    simpl. right. left. reflexivity.
  - cbv zeta in Hshared. rewrite Hshared. reflexivity.
Defined.

End DeleteMessage.

(** ** Presence *)

Section Presence.

Implicit Types (w : World) (online : bool).

Lemma truthy_Some (me : string) : me <> "" -> truthy (Some me) = true.
Proof.
  intros H. simpl. apply negb_true_iff. now apply String.eqb_neq.
Qed.

Lemma issued_app {A} (m : Async A) w (new : list Effect) :
  effects (shared (exec m w)) = (effects (shared w) ++ new)%list ->
  issued m w = new.
Proof.
  unfold issued. intros ->. rewrite skipn_app, skipn_all, Nat.sub_diag.
  reflexivity.
Qed.

(** What [updateOnlineStatus] does, by the outcome of its request. *)
Lemma updateOnlineStatus_exec online w (me : string) :
  profile_id (tab w) = Some me -> me <> "" ->
  let t := now (shared w) in
  let r := hd NetOk (net (shared w)) in
  let s1 := with_effects
              (effects (shared w) ++ [ProfilesUpdate (presence_write online t) r])
              (with_net (tl (net (shared w))) (shared w)) in
  exec (updateOnlineStatus online) w
  = match r with
    | NetOk =>
        {| shared := with_profiles_row
                       (apply_update (presence_write online t) (profiles_row (shared w))) s1;
           tab := with_ref (with_isOnline online (onlineStatusRef (tab w))) (tab w) |}
    | _ => {| shared := s1; tab := tab w |}
    end.
Proof.
  intros Hme Hne. pose proof (truthy_Some me Hne) as Ht.
  unfold updateOnlineStatus, profiles_update, next_net. unfold_async.
  rewrite Hme, Ht. simpl.
  destruct w as [[t n row tbl tabs eff] tb]. simpl in *.
  destruct n as [|[] n]; reflexivity.
Qed.

Lemma updateOnlineStatus_no_profile online w :
  truthy (profile_id (tab w)) = false -> exec (updateOnlineStatus online) w = w.
Proof.
  intros H. unfold updateOnlineStatus. unfold_async. now rewrite H.
Qed.

(** C9. Every write issued by [updateOnlineStatus] carries one of two
    records: the online one (online flag set, heartbeat now, last seen
    null) or the offline one (online flag cleared, last seen now,
    heartbeat null). It is the only effect of the call. When the write is
    carried out the row has exactly that shape afterwards, so an online
    row has a null last seen; when it is not, the row is as before. *)
Theorem updateOnlineStatus_write_shape online w (u : PresenceUpdate) (r : NetResult) :
  In (ProfilesUpdate u r) (issued (updateOnlineStatus online) w) ->
  let row' := profiles_row (shared (exec (updateOnlineStatus online) w)) in
  let t := now (shared w) in
  issued (updateOnlineStatus online) w = [ProfilesUpdate u r]
  /\ set_is_online u = Some online
  /\ set_last_seen u = Some (if online then None else Some t)
  /\ set_last_heartbeat u = Some (if online then Some t else None)
  /\ (r = NetOk ->
      is_online row' = online
      /\ last_seen row' = (if online then None else Some t)
      /\ last_heartbeat row' = (if online then Some t else None)
      /\ (is_online row' = true -> last_seen row' = None))
  /\ (r <> NetOk -> row' = profiles_row (shared w)).
Proof.
  intros Hin row' t. subst row'.
  destruct (truthy (profile_id (tab w))) eqn:Ht.
  - destruct (profile_id (tab w)) as [me|] eqn:Hme; [|discriminate].
    assert (Hne : me <> "").
    { simpl in Ht. apply negb_true_iff in Ht. now apply String.eqb_neq. }
    assert (Hiss : issued (updateOnlineStatus online) w
                   = [ProfilesUpdate (presence_write online t) (hd NetOk (net (shared w)))]).
    { apply issued_app. rewrite (updateOnlineStatus_exec online w me Hme Hne).
      now destruct (hd NetOk (net (shared w))). }
    rewrite Hiss in Hin. destruct Hin as [[= <- <-]|[]].
    rewrite Hiss, (updateOnlineStatus_exec online w me Hme Hne).
    fold t. split; [reflexivity|]. repeat (split; [reflexivity|]).
    split; intros Hr.
    + rewrite Hr. simpl. repeat (split; [reflexivity|]).
      now destruct online.
    + now destruct (hd NetOk (net (shared w))).
  - exfalso. unfold issued in Hin.
    rewrite (updateOnlineStatus_no_profile online w Ht), skipn_all in Hin.
    exact Hin.
Qed.

Lemma updateOnlineStatus_write_shape_witness :
  profiles_row (shared (exec (updateOnlineStatus false) world0))
  = {| is_online := false; last_seen := Some 1700000000000;
       last_heartbeat := None |}.
Proof.
  destruct (updateOnlineStatus_write_shape false world0
              (presence_write false 1700000000000) NetOk)
    as (_ & _ & _ & _ & Hrow & _).
  - vm_compute. left. reflexivity.
  - destruct (Hrow eq_refl) as (H1 & H2 & H3 & _).
    destruct (profiles_row _) as [o s h]. simpl in *. now subst.
Defined.

(** The record written by [cleanupAndGoOffline] itself is the offline one. *)
Lemma cleanup_write_is_offline (t : Z) :
  {| set_is_online := Some false; set_last_seen := Some (Some t);
     set_last_heartbeat := Some None |} = presence_write false t.
Proof. reflexivity. Qed.

(** *** Handlers that cannot fail and do not touch the interface *)

Lemma nothrow_ret {A} (a : A) : nothrow (ret a).
Proof. intros w. reflexivity. Qed.

Lemma frame_ret {A} (a : A) : frame (ret a).
Proof. intros w. reflexivity. Qed.

Lemma frame_throw {A} (e : string) : frame (@throw A e).
Proof. intros w. reflexivity. Qed.

Lemma nothrow_bind {A B} (m : Async A) (k : A -> Async B) :
  nothrow m -> (forall a, nothrow (k a)) -> nothrow (bind m k).
Proof.
  intros Hm Hk w. specialize (Hm w). unfold throws, bind in *.
  destruct (m w) as [[a|e] w1]; simpl in *; [apply Hk | discriminate].
Qed.

Lemma frame_bind {A B} (m : Async A) (k : A -> Async B) :
  frame m -> (forall a, frame (k a)) -> frame (bind m k).
Proof.
  intros Hm Hk w. specialize (Hm w). unfold exec, bind in *.
  destruct (m w) as [[a|e] w1]; simpl in *; [|exact Hm].
  specialize (Hk a w1). unfold exec in Hk. congruence.
Qed.

Lemma nothrow_try_catch {A} (body : Async A) (handler : string -> Async A) :
  (forall e, nothrow (handler e)) -> nothrow (try_catch body handler).
Proof.
  intros Hh w. unfold throws, try_catch.
  destruct (body w) as [[a|e] w1]; simpl; [reflexivity | apply Hh].
Qed.

Lemma frame_try_catch {A} (body : Async A) (handler : string -> Async A) :
  frame body -> (forall e, frame (handler e)) -> frame (try_catch body handler).
Proof.
  intros Hb Hh w. specialize (Hb w). unfold exec, try_catch in *.
  destruct (body w) as [[a|e] w1]; simpl in *; [exact Hb|].
  specialize (Hh e w1). unfold exec in Hh. congruence.
Qed.

Lemma frame_modify_shared f : frame (modify_shared f).
Proof. intros w. reflexivity. Qed.

Lemma frame_modify_ref f : frame (modify_ref f).
Proof. intros w. reflexivity. Qed.

Lemma frame_next_net : frame next_net.
Proof. intros w. unfold exec, next_net. now destruct (net (shared w)). Qed.

Lemma nothrow_next_net : nothrow next_net.
Proof. intros w. unfold throws, next_net. now destruct (net (shared w)). Qed.

Create HintDb handlers.

#[local] Hint Resolve nothrow_ret frame_ret frame_throw frame_modify_shared
  frame_modify_ref frame_next_net nothrow_next_net : handlers.

Ltac step_handler :=
  first
    [ apply nothrow_try_catch; intros
    | apply frame_try_catch; intros
    | apply nothrow_bind; intros
    | apply frame_bind; intros
    | match goal with
      | |- context [if ?b then _ else _] => destruct b
      | |- context [match ?x with _ => _ end] => destruct x
      end
    | solve [eauto with handlers]
    | intros w; reflexivity ].

Lemma frame_profiles_update u : frame (profiles_update u).
Proof. unfold profiles_update, emit, get_shared. repeat step_handler. Qed.

Lemma frame_profiles_select : frame profiles_select.
Proof. unfold profiles_select, emit, get_shared. repeat step_handler. Qed.

Lemma nothrow_updateOnlineStatus online : nothrow (updateOnlineStatus online).
Proof. unfold updateOnlineStatus, get_tab, console. repeat step_handler. Qed.

Lemma frame_updateOnlineStatus online : frame (updateOnlineStatus online).
Proof.
  pose proof frame_profiles_update.
  unfold updateOnlineStatus, get_tab, get_shared, console.
  repeat step_handler.
Qed.

#[local] Hint Resolve frame_profiles_update frame_profiles_select
  nothrow_updateOnlineStatus frame_updateOnlineStatus : handlers.

Lemma nothrow_sendHeartbeat isInitial : nothrow (sendHeartbeat isInitial).
Proof. unfold sendHeartbeat, get_tab, console. repeat step_handler. Qed.

Lemma frame_sendHeartbeat isInitial : frame (sendHeartbeat isInitial).
Proof.
  unfold sendHeartbeat, get_tab, get_shared, console. repeat step_handler.
Qed.

#[local] Hint Resolve nothrow_sendHeartbeat frame_sendHeartbeat : handlers.

Lemma nothrow_heartbeatTick : nothrow heartbeatTick.
Proof. unfold heartbeatTick, get_tab, get_shared, console. repeat step_handler. Qed.

Lemma frame_heartbeatTick : frame heartbeatTick.
Proof. unfold heartbeatTick, get_tab, get_shared, console. repeat step_handler. Qed.

Lemma nothrow_checkHeartbeatStatus : nothrow checkHeartbeatStatus.
Proof. unfold checkHeartbeatStatus, get_tab, console. repeat step_handler. Qed.

(** *** The heartbeat *)

Ltac split_world w :=
  let t := fresh "t" in let n := fresh "n" in let row := fresh "row" in
  let tbl := fresh "tbl" in let tabs := fresh "tabs" in
  let eff := fresh "eff" in let tb := fresh "tb" in
  destruct w as [[t n row tbl tabs eff] tb]; simpl in *.

Ltac in_cases H :=
  simpl in H;
  repeat match type of H with
         | _ \/ _ => destruct H as [H|H]
         | False => destruct H
         end.

(** One heartbeat of a tab that believes it is online: the status is
    read; if the read gives a row marked offline, the online record is
    written first; then the heartbeat is written, and whether or not that
    write was carried out the time is recorded as the one of the last
    heartbeat. A rejected read or write ends the heartbeat. *)
Lemma sendHeartbeat_effects w (me : string) :
  profile_id (tab w) = Some me -> me <> "" ->
  isOnline (onlineStatusRef (tab w)) = true ->
  let t := now (shared w) in
  let n := net (shared w) in
  let r1 := hd NetOk n in
  let r2 := hd NetOk (tl n) in
  let r3 := hd NetOk (tl (tl n)) in
  let healed :=
    match r1 with
    | NetOk => negb (is_online (profiles_row (shared w)))
    | _ => false
    end in
  let r_hb := if healed then r3 else r2 in
  let w' := exec (sendHeartbeat false) w in
  effects (shared w')
  = (effects (shared w)
     ++ ProfilesSelect r1
        :: match r1 with
           | NetThrow => []
           | _ => (if healed then [ProfilesUpdate (presence_write true t) r2] else [])
                  ++ [ProfilesUpdate (heartbeat_write t) r_hb]
           end)%list
  /\ lastHeartbeat (onlineStatusRef (tab w'))
     = match r1, r_hb with
       | NetThrow, _ | _, NetThrow => lastHeartbeat (onlineStatusRef (tab w))
       | _, _ => t
       end
  /\ isOnline (onlineStatusRef (tab w')) = true
  /\ isMinimized (onlineStatusRef (tab w')) = isMinimized (onlineStatusRef (tab w))
  /\ lastVisibilityChange (onlineStatusRef (tab w'))
     = lastVisibilityChange (onlineStatusRef (tab w))
  /\ profile_id (tab w') = Some me
  /\ now (shared w') = t.
Proof.
  intros Hme Hne Hon. pose proof (truthy_Some me Hne) as Ht.
  split_world w. destruct tb as [pid c pa [on lh tc hi lv mi mt] iv nh ms cs um su rc nm dm mm].
  simpl in *. subst pid on.
  unfold sendHeartbeat, updateOnlineStatus, profiles_select,
    profiles_update, next_net.
  unfold_async. simpl. rewrite !Ht. simpl.
  destruct row as [o ls lhb].
  destruct n as [|[] [|[] [|[] n]]]; destruct o; simpl;
    rewrite ?Ht; simpl; rewrite <- ?app_assoc; simpl; auto 10.
Qed.

(** The tick is the heartbeat followed by the check of how long the tab
    has been minimized. *)
Lemma heartbeatTick_exec w :
  let w1 := exec (sendHeartbeat false) w in
  exec heartbeatTick w
  = if isMinimized (onlineStatusRef (tab w1))
       && (now (shared w1) - lastVisibilityChange (onlineStatusRef (tab w1)) >=? 30000)
    then exec (updateOnlineStatus false) w1
    else w1.
Proof.
  pose proof (nothrow_sendHeartbeat false w) as Hn.
  unfold heartbeatTick, exec, throws, bind, get_tab, get_shared, console, ret in *.
  destruct (sendHeartbeat false w) as [[[]|e] w1]; simpl in *; [|discriminate].
  now destruct (isMinimized _ && _).
Qed.

(** What the tick issues: the requests of the heartbeat, then the offline
    record when the tab has been minimized for 30 seconds. *)
Lemma heartbeatTick_issued w (me : string) :
  profile_id (tab w) = Some me -> me <> "" ->
  isOnline (onlineStatusRef (tab w)) = true ->
  let t := now (shared w) in
  let w1 := exec (sendHeartbeat false) w in
  issued heartbeatTick w
  = (issued (sendHeartbeat false) w
     ++ if isMinimized (onlineStatusRef (tab w))
           && (t - lastVisibilityChange (onlineStatusRef (tab w)) >=? 30000)
        then [ProfilesUpdate (presence_write false t) (hd NetOk (net (shared w1)))]
        else [])%list
  /\ lastHeartbeat (onlineStatusRef (tab (exec heartbeatTick w)))
     = lastHeartbeat (onlineStatusRef (tab w1))
  /\ profile_id (tab (exec heartbeatTick w)) = Some me
  /\ (isMinimized (onlineStatusRef (tab w)) = false ->
      isOnline (onlineStatusRef (tab (exec heartbeatTick w))) = true).
Proof.
  intros Hme Hne Hon t w1.
  destruct (sendHeartbeat_effects w me Hme Hne Hon)
    as (Heff & _ & Hon1 & Hmin & Hvis & Hme1 & Hnow).
  fold w1 in Heff, Hon1, Hmin, Hvis, Hme1, Hnow. fold t in Heff, Hnow.
  assert (Hhb : issued (sendHeartbeat false) w
                = skipn (length (effects (shared w))) (effects (shared w1)))
    by reflexivity.
  unfold issued at 1.
  rewrite (heartbeatTick_exec w). fold w1. rewrite Hmin, Hvis, Hnow.
  destruct (isMinimized (onlineStatusRef (tab w))
            && (t - lastVisibilityChange (onlineStatusRef (tab w)) >=? 30000)) eqn:Eidle.
  - pose proof (updateOnlineStatus_exec false w1 me Hme1 Hne) as Hoff.
    cbv zeta in Hoff. rewrite Hnow in Hoff.
    repeat split.
    + rewrite Hoff, Hhb.
      destruct (hd NetOk (net (shared w1))); simpl;
        rewrite Heff, <- ?app_assoc, !skipn_app, !skipn_all, Nat.sub_diag;
        reflexivity.
    + rewrite Hoff. now destruct (hd NetOk (net (shared w1))).
    + rewrite Hoff. now destruct (hd NetOk (net (shared w1))).
    + intros Hvisible. rewrite Hvisible in Eidle. discriminate.
  - rewrite app_nil_r. repeat split; auto.
Qed.




(** *** The liveness check *)

(** The trace of one liveness check, and the row it leaves. *)
Lemma checkHeartbeatStatus_effects w (me : string) :
  profile_id (tab w) = Some me -> me <> "" ->
  let w' := exec checkHeartbeatStatus w in
  let t := now (shared w) in
  let row := profiles_row (shared w) in
  let r1 := hd NetOk (net (shared w)) in
  let r2 := hd NetOk (tl (net (shared w))) in
  let stale :=
    match last_heartbeat row with
    | Some lastHb => (t - lastHb >? 35000) && is_online row
    | None => false
    end in
  effects (shared w')
  = (effects (shared w)
     ++ ProfilesSelect r1
        :: match r1 with
           | NetOk => if stale then [ProfilesUpdate (presence_write false t) r2] else []
           | _ => []
           end)%list
  /\ profiles_row (shared w')
     = match r1, r2 with
       | NetOk, NetOk => if stale then presence_shape false t else row
       | _, _ => row
       end
  /\ profile_id (tab w') = Some me.
Proof.
  intros Hme Hne. pose proof (truthy_Some me Hne) as Ht.
  split_world w.
  destruct tb as [pid c pa rf iv nh ms cs um su rc nm dm mm].
  destruct row as [o ls lhb]. simpl in *. subst pid.
  unfold checkHeartbeatStatus, updateOnlineStatus, profiles_select,
    profiles_update, next_net.
  unfold_async. simpl. rewrite !Ht. simpl.
  destruct n as [|[] [|[] n]]; simpl; auto;
    destruct lhb as [lastHb|]; simpl; auto;
    destruct (t - lastHb >? 35000); simpl; auto;
    destruct o; simpl; rewrite ?Ht; simpl;
    rewrite <- ?app_assoc; simpl; auto.
Qed.

(** C5. When the row is marked online and its heartbeat is more than 35
    seconds old, the liveness check, with its read and its write carried
    out, issues one write, the offline record; a second check, at any
    later time and whatever the network does, reads the row and writes
    nothing, and the row stays as the first check left it. *)
Theorem liveness_check_marks_offline_once
    w (me : string) (hb : Z) (t' : Z) (n' : list NetResult) :
  profile_id (tab w) = Some me ->
  me <> "" ->
  is_online (profiles_row (shared w)) = true ->
  last_heartbeat (profiles_row (shared w)) = Some hb ->
  now (shared w) - hb > 35000 ->
  hd NetOk (net (shared w)) = NetOk ->
  hd NetOk (tl (net (shared w))) = NetOk ->
  let t := now (shared w) in
  let w1 := exec checkHeartbeatStatus w in
  let w2 := later t' n' w1 in
  issued checkHeartbeatStatus w
  = [ProfilesSelect NetOk; ProfilesUpdate (presence_write false t) NetOk]
  /\ profiles_row (shared w1) = presence_shape false t
  /\ issued checkHeartbeatStatus w2 = [ProfilesSelect (hd NetOk n')]
  /\ profiles_row (shared (exec checkHeartbeatStatus w2)) = profiles_row (shared w1).
Proof.
  intros Hme Hne Hon Hhb Hold Hr1 Hr2 t w1 w2.
  destruct (checkHeartbeatStatus_effects w me Hme Hne) as (E1 & Hrow1 & Hme1).
  fold w1 in E1, Hrow1, Hme1. fold t in E1, Hrow1.
  assert (Hgt : (t - hb >? 35000) = true) by (apply Z.gtb_lt; lia).
  rewrite Hr1, Hr2, Hhb, Hon, Hgt in *. simpl in E1, Hrow1.
  destruct (checkHeartbeatStatus_effects w2 me Hme1 Hne) as (E2 & Hrow2 & _).
  assert (Hrow12 : profiles_row (shared w2) = presence_shape false t)
    by exact Hrow1.
  rewrite Hrow12 in E2, Hrow2. simpl in E2, Hrow2.
  repeat split.
  - now apply issued_app.
  - exact Hrow1.
  - apply issued_app. rewrite E2. simpl. now destruct (hd NetOk n').
  - rewrite Hrow2, Hrow1.
    repeat match goal with
           | |- context [match ?x with _ => _ end] => destruct x
           end; reflexivity.
Qed.

Lemma liveness_check_marks_offline_once_witness :
  issued checkHeartbeatStatus world_stale
  = [ProfilesSelect NetOk; ProfilesUpdate (presence_write false 1700000000000) NetOk]
  /\ issued checkHeartbeatStatus
       (later 1700000030000 [] (exec checkHeartbeatStatus world_stale))
     = [ProfilesSelect NetOk].
Proof.
  destruct (liveness_check_marks_offline_once world_stale "alice"
              (1700000000000 - 40000) 1700000030000 []
              eq_refl ltac:(discriminate) eq_refl eq_refl
              ltac:(simpl; lia) eq_refl eq_refl)
    as (H1 & _ & H2 & _).
  split; [exact H1 | exact H2].
Defined.

(** *** The tab registry *)

Lemma nothrow_startHeartbeat : nothrow startHeartbeat.
Proof.
  unfold startHeartbeat, get_tab, clearInterval, modify_tab, modify_ref.
  repeat step_handler.
Qed.

(** A change of the registry that is neither the first registration nor
    the last unregistration only records the new count. *)
Lemma updateTabCount_quiet (tabId : string) (increment : bool) w :
  let tabs' := registry_after tabId increment (now (shared w)) (active_tabs (shared w)) in
  (if increment then size tabs' <> 1%nat else size tabs' <> 0%nat) ->
  exec (updateTabCount tabId increment) w
  = {| shared := with_active_tabs tabs' (shared w);
       tab := with_ref (with_tabCount (size tabs') (onlineStatusRef (tab w))) (tab w) |}.
Proof.
  intros tabs' H. subst tabs'. unfold registry_after in *.
  unfold updateTabCount. unfold_async. simpl.
  destruct increment; simpl.
  - now rewrite (proj2 (Nat.eqb_neq _ _) H).
  - now rewrite (proj2 (Nat.eqb_neq _ _) H).
Qed.

(** The first registration, with the backend reachable: the online
    record and then the initial heartbeat are written, and the heartbeat
    interval is armed. *)
Lemma updateTabCount_first (tabId me : string) w :
  profile_id (tab w) = Some me -> me <> "" ->
  net (shared w) = [] ->
  let t := now (shared w) in
  let tabs' := <[tabId := t]> (active_tabs (shared w)) in
  size tabs' = 1%nat ->
  let w' := exec (updateTabCount tabId true) w in
  active_tabs (shared w') = tabs'
  /\ net (shared w') = []
  /\ profiles_row (shared w')
     = {| is_online := true; last_seen := None; last_heartbeat := Some t |}
  /\ effects (shared w')
     = (effects (shared w)
        ++ [ProfilesUpdate (presence_write true t) NetOk;
            ProfilesSelect NetOk;
            ProfilesUpdate (heartbeat_write t) NetOk])%list
  /\ isOnline (onlineStatusRef (tab w')) = true
  /\ heartbeatInterval (onlineStatusRef (tab w')) = Some (next_handle (tab w))
  /\ next_handle (tab w) ∈ intervals (tab w')
  /\ profile_id (tab w') = Some me
  /\ isMinimized (onlineStatusRef (tab w')) = isMinimized (onlineStatusRef (tab w)).
Proof.
  intros Hme Hne Hnet t tabs' Hsize. subst t tabs'.
  pose proof (truthy_Some me Hne) as Ht.
  split_world w.
  destruct tb as [pid c pa [on lh tc hi lv mi mt] iv nh ms cs um su rc nm dm mm].
  simpl in *. subst pid n.
  unfold updateTabCount, updateOnlineStatus, startHeartbeat, sendHeartbeat,
    setInterval, clearInterval, profiles_select, profiles_update, next_net.
  unfold_async. simpl. rewrite Hsize. simpl. rewrite !Ht. simpl.
  destruct hi as [h|]; simpl; rewrite ?Ht; simpl; rewrite <- ?app_assoc; simpl;
    repeat split; try reflexivity;
    apply elem_of_union_r, elem_of_singleton; reflexivity.
Qed.

(** The last unregistration, with the backend reachable: the offline
    record is written and the heartbeat interval of the tab is cleared. *)
Lemma updateTabCount_last (tabId me : string) w :
  profile_id (tab w) = Some me -> me <> "" ->
  net (shared w) = [] ->
  let t := now (shared w) in
  let tabs' := delete tabId (active_tabs (shared w)) in
  size tabs' = 0%nat ->
  let w' := exec (updateTabCount tabId false) w in
  active_tabs (shared w') = tabs'
  /\ profiles_row (shared w') = presence_shape false t
  /\ effects (shared w')
     = (effects (shared w) ++ [ProfilesUpdate (presence_write false t) NetOk])%list
  /\ isOnline (onlineStatusRef (tab w')) = false
  /\ (forall h, heartbeatInterval (onlineStatusRef (tab w')) = Some h ->
                h ∉ intervals (tab w'))
  /\ net (shared w') = [].
Proof.
  intros Hme Hne Hnet t tabs' Hsize. subst t tabs'.
  pose proof (truthy_Some me Hne) as Ht.
  split_world w.
  destruct tb as [pid c pa [on lh tc hi lv mi mt] iv nh ms cs um su rc nm dm mm].
  simpl in *. subst pid n.
  unfold updateTabCount, updateOnlineStatus, clearInterval,
    profiles_update, next_net.
  unfold_async. simpl. rewrite Hsize. simpl. rewrite !Ht. simpl.
  destruct hi as [h|]; simpl; repeat split; try discriminate.
  intros h' [= <-]. rewrite elem_of_difference, elem_of_singleton. tauto.
Qed.

(** Unmounting a tab stops its heartbeat, whether or not it is the last
    tab and whatever the network does: the interval is cleared before the
    tab leaves the registry. *)
Lemma cleanup_stops_heartbeat (tabId : string) w (h : positive) :
  heartbeatInterval (onlineStatusRef (tab w)) = Some h ->
  (h ∉ intervals (tab (exec (cleanupAndGoOffline tabId) w)))
  /\ throws (cleanupAndGoOffline tabId) w = false.
Proof.
  intros Hh. split_world w.
  destruct tb as [pid c pa [on lh tc hi lv mi mt] iv nh ms cs um su rc nm dm mm].
  simpl in *. subst hi.
  unfold cleanupAndGoOffline, unregisterTab, updateTabCount, updateOnlineStatus,
    clearInterval, profiles_update, next_net.
  unfold_async. simpl.
  destruct (size (delete tabId tabs) =? 0)%nat eqn:Esz; simpl;
    destruct (truthy pid) eqn:Et; simpl;
    try (destruct n as [|[] [|[] n]]; simpl);
    rewrite ?Esz, ?Et; simpl;
    (split; [|reflexivity]);
    rewrite ?elem_of_difference, ?elem_of_singleton; tauto.
Qed.

Lemma cleanup_keeps_handle (tabId : string) w :
  heartbeatInterval (onlineStatusRef (tab (exec (cleanupAndGoOffline tabId) w)))
  = heartbeatInterval (onlineStatusRef (tab w)).
Proof.
  split_world w.
  destruct tb as [pid c pa [on lh tc hi lv mi mt] iv nh ms cs um su rc nm dm mm].
  simpl in *.
  unfold cleanupAndGoOffline, unregisterTab, updateTabCount, updateOnlineStatus,
    clearInterval, profiles_update, next_net.
  unfold_async. simpl.
  destruct hi as [h|]; simpl;
    destruct (size (delete tabId tabs) =? 0)%nat eqn:Esz; simpl;
    destruct (truthy pid) eqn:Et; simpl;
    try (destruct n as [|[] [|[] n]]; simpl);
    rewrite ?Esz, ?Et; simpl; reflexivity.
Qed.

Lemma cleanup_leaves_no_heartbeat (tabId : string) w :
  ~ heartbeat_alive (tab (exec (cleanupAndGoOffline tabId) w)).
Proof.
  intros (h & Hh & Hin). rewrite cleanup_keeps_handle in Hh.
  now destruct (cleanup_stops_heartbeat tabId w h Hh).
Qed.

(** The unmount of a tab that is not the last one does to the shared
    state what [unregisterTab] does: the registry loses the tab, nothing is
    written. *)
Lemma cleanup_not_last (tabId : string) w :
  size (delete tabId (active_tabs (shared w))) <> 0%nat ->
  shared (exec (cleanupAndGoOffline tabId) w)
  = with_active_tabs (delete tabId (active_tabs (shared w))) (shared w).
Proof.
  intros Hsz. apply Nat.eqb_neq in Hsz.
  split_world w.
  destruct tb as [pid c pa [on lh tc hi lv mi mt] iv nh ms cs um su rc nm dm mm].
  simpl in *.
  unfold cleanupAndGoOffline, unregisterTab, updateTabCount, clearInterval.
  unfold_async. simpl.
  destruct hi as [h|]; simpl; rewrite Hsz; simpl; rewrite ?Hsz; reflexivity.
Qed.

(** A tick in a tab that believes it is online and is not minimized,
    with the backend reachable and the row marked offline: the online
    record is written before the heartbeat, and the row is online again. *)
Lemma heartbeatTick_heals w (me : string) :
  profile_id (tab w) = Some me -> me <> "" ->
  isOnline (onlineStatusRef (tab w)) = true ->
  isMinimized (onlineStatusRef (tab w)) = false ->
  net (shared w) = [] ->
  is_online (profiles_row (shared w)) = false ->
  let t := now (shared w) in
  let w' := exec heartbeatTick w in
  effects (shared w')
  = (effects (shared w)
     ++ [ProfilesSelect NetOk; ProfilesUpdate (presence_write true t) NetOk;
         ProfilesUpdate (heartbeat_write t) NetOk])%list
  /\ is_online (profiles_row (shared w')) = true
  /\ active_tabs (shared w') = active_tabs (shared w).
Proof.
  intros Hme Hne Hon Hmin Hnet Hoff. pose proof (truthy_Some me Hne) as Ht.
  split_world w.
  destruct tb as [pid c pa [on lh tc hi lv mi mt] iv nh ms cs um su rc nm dm mm].
  destruct row as [o ls lhb]. simpl in *. subst pid on mi n o.
  unfold heartbeatTick, sendHeartbeat, updateOnlineStatus, profiles_select,
    profiles_update, next_net.
  unfold_async. simpl. rewrite !Ht. simpl. rewrite ?Ht. simpl.
  rewrite <- ?app_assoc. simpl. auto.
Qed.

(** The two calls in the middle of the sequence only change the
    registry. *)
Lemma tab_sequence_middle (s0 : Shared) (tA tB : Tab) (A B : string) (t2 t3 : Z) :
  A <> B ->
  let w1 := exec (registerTab A) {| shared := s0; tab := tA |} in
  active_tabs (shared w1) = {[A := now s0]} ->
  let w2 := exec (registerTab B) (switch_tab t2 tB w1) in
  let w3 := exec (unregisterTab A) (switch_tab t3 (tab w1) w2) in
  w2 = {| shared := with_active_tabs (<[B := t2]> {[A := now s0]})
                      (with_now t2 (shared w1));
          tab := with_ref (with_tabCount 2 (onlineStatusRef tB)) tB |}
  /\ w3 = {| shared := with_active_tabs {[B := t2]} (with_now t3 (shared w2));
             tab := with_ref (with_tabCount 1 (onlineStatusRef (tab w1))) (tab w1) |}.
Proof.
  intros HAB w1 Htabs1 w2 w3. clearbody w1.
  assert (Hsz2 : size (<[B := t2]> ({[A := now s0]} : gmap string Z)) = 2%nat).
  { rewrite map_size_insert_None, map_size_singleton; [reflexivity|].
    now apply lookup_singleton_ne. }
  assert (E2 : w2 = {| shared := with_active_tabs (<[B := t2]> {[A := now s0]})
                                   (with_now t2 (shared w1));
                       tab := with_ref (with_tabCount 2 (onlineStatusRef tB)) tB |}).
  { subst w2. unfold registerTab.
    rewrite updateTabCount_quiet; unfold registry_after, switch_tab; simpl;
      rewrite Htabs1, Hsz2; [reflexivity | discriminate]. }
  split; [exact E2|].
  assert (Hreg3 : delete A (<[B := t2]> ({[A := now s0]} : gmap string Z))
                  = {[B := t2]}).
  { rewrite delete_insert_ne by congruence.
    now rewrite delete_singleton_eq, insert_empty. }
  subst w3. unfold unregisterTab.
  rewrite updateTabCount_quiet; unfold registry_after, switch_tab;
    rewrite E2; simpl; rewrite Hreg3, map_size_singleton;
    [reflexivity | discriminate].
Qed.

(** The interval armed in the first tab survives the sequence. *)
Lemma first_tab_keeps_heartbeat
    (s0 : Shared) (tA tB : Tab) (A B me : string) (t2 t3 t4 : Z) :
  A <> B ->
  me <> "" ->
  profile_id tA = Some me ->
  active_tabs s0 = ∅ ->
  net s0 = [] ->
  heartbeat_alive
    (fst (tabs_after_sequence A B t2 t3 t4 tB {| shared := s0; tab := tA |})).
Proof.
  intros HAB Hne HmeA Hempty Hnet.
  assert (Hsz1 : size (<[A := now s0]> (active_tabs s0)) = 1%nat).
  { rewrite Hempty, insert_empty. apply map_size_singleton. }
  destruct (updateTabCount_first A me {| shared := s0; tab := tA |}
              HmeA Hne Hnet Hsz1)
    as (Htabs1 & _ & _ & _ & _ & Hhb1 & Hiv1 & _).
  fold (registerTab A) in Htabs1, Hhb1, Hiv1.
  simpl in Htabs1, Hhb1, Hiv1. rewrite Hempty, insert_empty in Htabs1.
  destruct (tab_sequence_middle s0 tA tB A B t2 t3 HAB Htabs1) as (_ & E3).
  unfold tabs_after_sequence. cbv zeta. simpl fst. rewrite E3. simpl.
  exists (next_handle tA). split; assumption.
Qed.




End Presence.
